(** * scan_file.py: the ignore-pattern matcher and the pattern loader

    A shallow embedding of [load_gitignore_patterns], [should_ignore] and
    [fnmatch_path] of [scan_file.py], together with the parts of the Python
    library they call ([str] methods, [posixpath], [pathlib]), and of
    their callers [scan_directory_simple], [read_file_content] and [main],
    with [os.walk] over a tree of directory entries.

    Conventions.
    - A Python [str] is a [string]; a character is a code point below 256.
    - [os.path] is [posixpath], so [os.sep] is ["/"].
    - The process environment the functions consult (current directory,
      [os.path.isdir], the file behind [open]) is an explicit record [Env];
      [os.getcwd()] always answers.
    - [print] appends a line to a log that the functions return next to
      their value. *)

From Stdlib Require Import String Ascii List Bool Arith Lia Permutation.
From Stdlib Require Import DecimalString.
Import ListNotations.
Open Scope string_scope.
Open Scope bool_scope.

(* ================================================================= *)
(** ** Python [str] methods *)

Module PyStr.

(** [s.startswith(prefix)] *)
Fixpoint startswith (s prefix : string) {struct prefix} : bool :=
  match prefix, s with
  | EmptyString, _ => true
  | String _ _, EmptyString => false
  | String a p, String b t => Ascii.eqb a b && startswith t p
  end.

(** [s[n:]] *)
Fixpoint slice_from (n : nat) (s : string) : string :=
  match n, s with
  | O, _ => s
  | S _, EmptyString => EmptyString
  | S k, String _ t => slice_from k t
  end.

(** [s.endswith(suffix)] *)
Definition endswith (s suffix : string) : bool :=
  Nat.leb (String.length suffix) (String.length s)
  && String.eqb (slice_from (String.length s - String.length suffix) s) suffix.

(** [sub in s] *)
Fixpoint contains (sub s : string) : bool :=
  startswith s sub
  || match s with
     | EmptyString => false
     | String _ t => contains sub t
     end.

(** [s.replace(old, new)] for one-character [old] and [new] *)
Fixpoint replace (old new : ascii) (s : string) : string :=
  match s with
  | EmptyString => EmptyString
  | String c t =>
      String (if Ascii.eqb c old then new else c) (replace old new t)
  end.

(** [s.lstrip(chars)], the character set given as a predicate *)
Fixpoint lstrip (f : ascii -> bool) (s : string) : string :=
  match s with
  | EmptyString => EmptyString
  | String c t => if f c then lstrip f t else s
  end.

(** [s.rstrip(chars)] *)
Fixpoint rstrip (f : ascii -> bool) (s : string) : string :=
  match s with
  | EmptyString => EmptyString
  | String c t =>
      match rstrip f t with
      | EmptyString => if f c then EmptyString else String c EmptyString
      | r => String c r
      end
  end.

(** [c.isspace()] on code points below 256:
    9-13, 28-31, 32, 133 and 160. *)
Definition isspace (c : ascii) : bool :=
  let n := nat_of_ascii c in
  (Nat.leb 9 n && Nat.leb n 13) || (Nat.leb 28 n && Nat.leb n 32)
  || Nat.eqb n 133 || Nat.eqb n 160.

(** [s.strip()] *)
Definition strip (s : string) : string := rstrip isspace (lstrip isspace s).

(** [s.split(sep)] for a one-character [sep]; never the empty list *)
Fixpoint split (sep : ascii) (s : string) : list string :=
  match s with
  | EmptyString => [EmptyString]
  | String c t =>
      if Ascii.eqb c sep then EmptyString :: split sep t
      else match split sep t with
           | [] => [String c EmptyString]
           | h :: r => String c h :: r
           end
  end.

(** [sep.join(l)] *)
Fixpoint join (sep : string) (l : list string) : string :=
  match l with
  | [] => EmptyString
  | [x] => x
  | x :: r => x ++ sep ++ join sep r
  end.

(** [s.rfind(c) + 1] for a one-character [c], then [s[i:]]: what is
    left of [s] after its last [c] *)
Fixpoint after_last (c : ascii) (s : string) : string :=
  match s with
  | EmptyString => EmptyString
  | String a t =>
      if contains (String c EmptyString) t then after_last c t
      else if Ascii.eqb a c then t else s
  end.

End PyStr.

Import PyStr.

(* ================================================================= *)
(** ** [fnmatch_path] (scan_file.py, lines 58-70) *)

Definition backslash : ascii := "\"%char.
Definition slash : ascii := "/"%char.

Definition fnmatch_path (path pattern : string) : bool :=
  let path := replace backslash slash path in
  let pattern := replace backslash slash pattern in
  if startswith pattern "*/" then
    let pattern := slice_from 2 pattern in
    endswith path pattern || contains pattern path
  else if startswith pattern "**/" then
    let pattern := slice_from 3 pattern in
    contains pattern path
  else
    String.eqb path pattern || endswith path ("/" ++ pattern)
    || contains pattern path.

(** *** The reference definition of the match, in the specification's words *)

Definition Suffix (suf s : string) : Prop := exists pre, s = pre ++ suf.

Definition Substring (sub s : string) : Prop :=
  exists pre post, s = pre ++ sub ++ post.

Definition Match_reference (candidate pattern : string) : Prop :=
  let c := replace backslash slash candidate in
  let p := replace backslash slash pattern in
  (exists q, p = "*/" ++ q /\ (Suffix q c \/ Substring q c))
  \/ (exists q, p = "**/" ++ q /\ Substring q c)
  \/ ((forall q, p <> "*/" ++ q) /\ (forall q, p <> "**/" ++ q)
      /\ (c = p \/ Suffix ("/" ++ p) c \/ Substring p c)).

(** The pattern with its leading [*/] or [**/] removed. *)
Definition strip_star_prefix (p : string) : string :=
  if startswith p "*/" then slice_from 2 p
  else if startswith p "**/" then slice_from 3 p
  else p.

(* ================================================================= *)
(** ** Exceptions, results and the environment *)

(** A Python exception, kept as its class and its [str(e)]. *)
Inductive exn : Type :=
| ValueError (msg : string)
| OSError (msg : string).

Definition exn_str (e : exn) : string :=
  match e with
  | ValueError msg => msg
  | OSError msg => msg
  end.

(** A computation that returns a value or raises. *)
Inductive result (A : Type) : Type :=
| Ok (a : A)
| Raise (e : exn).

Arguments Ok {A} a.
Arguments Raise {A} e.

Definition bind {A B : Type} (m : result A) (k : A -> result B) : result B :=
  match m with
  | Ok a => k a
  | Raise e => Raise e
  end.

Notation "x <- m ;; k" := (bind m (fun x => k))
  (at level 61, m at next level, right associativity).

(** What [os.path.exists], [open] and the iteration over the open file do
    for one path: the file is not there; or [open] raises; or the
    iteration yields [lines] and then ends ([failure = None]) or raises
    ([failure = Some e]). *)
Inductive file_state : Type :=
| NoSuchFile
| OpenFails (e : exn)
| Readable (lines : list string) (failure : option exn).

Record Env : Type := mkEnv {
  getcwd : string;                 (* os.getcwd() *)
  isdir : string -> bool;          (* os.path.isdir *)
  open_file : string -> file_state
}.

(* ================================================================= *)
(** ** [posixpath] *)

Module posixpath.

(** [posixpath.join(a, b)] *)
Definition join (a b : string) : string :=
  if startswith b "/" then b
  else if String.eqb a EmptyString || endswith a "/" then a ++ b
  else a ++ "/" ++ b.

(** One round of the loop of [normpath] over the components. *)
Definition norm_step (initial_slashes : nat) (new_comps : list string)
    (comp : string) : list string :=
  if String.eqb comp EmptyString || String.eqb comp "." then new_comps
  else if negb (String.eqb comp "..")
          || (Nat.eqb initial_slashes 0
              && match new_comps with [] => true | _ => false end)
          || match new_comps with
             | [] => false
             | _ => String.eqb (last new_comps EmptyString) ".."
             end
  then (new_comps ++ [comp])%list
  else match new_comps with
       | [] => []
       | _ => removelast new_comps
       end.

Fixpoint sep_times (n : nat) : string :=
  match n with
  | O => EmptyString
  | S k => "/" ++ sep_times k
  end.

(** [posixpath.normpath(path)] *)
Definition normpath (path : string) : string :=
  if String.eqb path EmptyString then "."
  else
    let initial_slashes :=
      if startswith path "/" then
        if startswith path "//" && negb (startswith path "///") then 2
        else 1
      else 0 in
    let comps := split slash path in
    let comps := fold_left (norm_step initial_slashes) comps [] in
    let path := PyStr.join "/" comps in
    let path := sep_times initial_slashes ++ path in
    if String.eqb path EmptyString then "." else path.

(** [posixpath.abspath(path)] *)
Definition abspath (env : Env) (path : string) : string :=
  normpath (if startswith path "/" then path else join (getcwd env) path).

(** [genericpath.commonprefix([a, b])] on two lists of components.  The
    library compares the smaller with the larger of the two in list
    order; their common prefix is that of [a] and [b]. *)
Fixpoint commonprefix (a b : list string) : list string :=
  match a, b with
  | x :: a', y :: b' =>
      if String.eqb x y then x :: commonprefix a' b' else []
  | _, _ => []
  end.

Definition tail_list (p : string) : list string :=
  let tail := lstrip (Ascii.eqb slash) p in
  if String.eqb tail EmptyString then [] else split slash tail.

(** [posixpath.relpath(path, start)] *)
Definition relpath (env : Env) (path start : string) : result string :=
  if String.eqb path EmptyString then Raise (ValueError "no path specified")
  else
    let start_list := tail_list (abspath env start) in
    let path_list := tail_list (abspath env path) in
    let i := List.length (commonprefix start_list path_list) in
    let rel_list :=
      (repeat ".." (List.length start_list - i) ++ skipn i path_list)%list in
    match rel_list with
    | [] => Ok "."
    | _ => Ok (PyStr.join "/" rel_list)
    end.

(** [posixpath.basename(p)] *)
Definition basename (p : string) : string := after_last slash p.

End posixpath.

(** A path component: not empty and without a separator. *)
Fixpoint slash_free (s : string) : bool :=
  match s with
  | EmptyString => true
  | String c t => negb (Ascii.eqb c slash) && slash_free t
  end.

Definition component (x : string) : Prop := x <> EmptyString /\ slash_free x = true.

(* ================================================================= *)
(** ** [pathlib] *)

Module pathlib.

(** [posixpath.splitroot] without the drive, which is always empty. *)
Definition splitroot (p : string) : string * string :=
  if negb (startswith p "/") then (EmptyString, p)
  else if negb (startswith p "//") || startswith p "///"
  then ("/", slice_from 1 p)
  else ("//", slice_from 2 p).

(** [Path(path).parts] *)
Definition parts (path : string) : list string :=
  let '(root, rel) := splitroot path in
  let tail :=
    filter (fun x => negb (String.eqb x EmptyString) && negb (String.eqb x "."))
           (split slash rel) in
  if String.eqb root EmptyString then tail else root :: tail.

End pathlib.

(* ================================================================= *)
(** ** [should_ignore] (scan_file.py, lines 22-56) *)

(** The [for pattern in patterns] loop: [Some true] when an iteration
    executes [return True], [None] when the loop runs to its end. *)
Fixpoint for_patterns (env : Env) (path rel_path : string)
    (patterns : list string) : option bool :=
  match patterns with
  | [] => None
  | pattern :: rest =>
      if String.eqb pattern EmptyString then for_patterns env path rel_path rest
      else if endswith pattern "/" then
        let pattern := rstrip (Ascii.eqb slash) pattern in
        if isdir env path
           && (String.eqb rel_path pattern
               || startswith rel_path (pattern ++ "/"))
        then Some true
        else for_patterns env path rel_path rest
      else
        if fnmatch_path rel_path pattern
           || fnmatch_path (posixpath.basename path) pattern
        then Some true
        else for_patterns env path rel_path rest
  end.

(** What one round of the loop decides: whether [pattern] makes it
    return. *)
Definition pattern_hits (env : Env) (path rel_path pattern : string) : bool :=
  if String.eqb pattern EmptyString then false
  else if endswith pattern "/" then
    let pattern := rstrip (Ascii.eqb slash) pattern in
    isdir env path
    && (String.eqb rel_path pattern || startswith rel_path (pattern ++ "/"))
  else
    fnmatch_path rel_path pattern
    || fnmatch_path (posixpath.basename path) pattern.

(** The body of the [try]: the value of the [return] it executes, if any. *)
Definition should_ignore_try (env : Env) (path : string)
    (patterns : list string) (root_dir : string) : result (option bool) :=
  rel_path <- posixpath.relpath env path root_dir ;;
  if existsb (String.eqb ".git") (pathlib.parts path) then Ok (Some true)
  else if String.eqb rel_path "." then Ok (Some false)
  else Ok (for_patterns env path rel_path patterns).

Definition ignore_warning (path : string) (e : exn) : string :=
  "Warning: Error checking ignore for " ++ path ++ ": " ++ exn_str e.

(** The returned value and the lines printed. *)
Definition should_ignore (env : Env) (path : string)
    (patterns : list string) (root_dir : string) : bool * list string :=
  match should_ignore_try env path patterns root_dir with
  | Ok (Some b) => (b, [])
  | Ok None => (false, [])
  | Raise e => (false, [ignore_warning path e])
  end.

(* ================================================================= *)
(** ** [load_gitignore_patterns] (scan_file.py, lines 5-20) *)

(** The [for line in f] loop over the lines the file yields, appending
    to [patterns]. *)
Fixpoint for_lines (lines : list string) (patterns : list string)
    : list string :=
  match lines with
  | [] => patterns
  | line :: rest =>
      let line := strip line in
      if negb (String.eqb line EmptyString) && negb (startswith line "#")
      then for_lines rest (patterns ++ [line])%list
      else for_lines rest patterns
  end.

Definition load_warning (e : exn) : string :=
  "Warning: Could not read .gitignore: " ++ exn_str e.

(** The returned patterns and the lines printed. *)
Definition load_gitignore_patterns (env : Env) (root_dir : string)
    : list string * list string :=
  let patterns := [] in
  let gitignore_path := posixpath.join root_dir ".gitignore" in
  match open_file env gitignore_path with
  | NoSuchFile => (patterns, [])
  | OpenFails e => (patterns, [load_warning e])
  | Readable lines failure =>
      let patterns := for_lines lines patterns in
      match failure with
      | None => (patterns, [])
      | Some e => (patterns, [load_warning e])
      end
  end.

(** *** The parsing rule in the specification's words *)

(** A blank line: nothing but whitespace. *)
Fixpoint blank (line : string) : bool :=
  match line with
  | EmptyString => true
  | String c t => PyStr.isspace c && blank t
  end.

(** The first character of the line that is not whitespace. *)
Fixpoint first_non_whitespace (line : string) : option ascii :=
  match line with
  | EmptyString => None
  | String c t => if PyStr.isspace c then first_non_whitespace t else Some c
  end.

Definition comment (line : string) : bool :=
  match first_non_whitespace line with
  | Some c => Ascii.eqb c "#"
  | None => false
  end.

Definition Load_reference (lines : list string) : list string :=
  map strip (filter (fun line => negb (blank line) && negb (comment line)) lines).

(* ================================================================= *)
(** ** Sample environments *)

(** The line terminator the file iterator leaves on a line. *)
Definition newline : string := String (ascii_of_nat 10) EmptyString.

(** A tree rooted at [/r]: the directories are [/r], [/r/build],
    [/r/build/out], [/r/.git] and [/r/pkg]; every other path is a file or
    absent.  [/r/.gitignore] holds the four lines of the loader's
    round-trip example, each with its line terminator; reading
    [/r/pkg/.gitignore] fails after its first line;
    [/r/build/.gitignore] cannot be opened. *)
Definition sample_isdir (p : string) : bool :=
  existsb (String.eqb p) ["/r"; "/r/build"; "/r/build/out"; "/r/.git"; "/r/pkg"].

Definition sample_open (p : string) : file_state :=
  if String.eqb p "/r/.gitignore"
  then Readable (map (fun l => l ++ newline) ["# comment"; EmptyString; "dist/"; "*.tmp"])
                None
  else if String.eqb p "/r/pkg/.gitignore"
  then Readable ["dist/" ++ newline]
                (Some (OSError "[Errno 5] Input/output error"))
  else if String.eqb p "/r/build/.gitignore"
  then OpenFails (OSError "[Errno 13] Permission denied: '/r/build/.gitignore'")
  else NoSuchFile.

Definition sample_env : Env := mkEnv "/r" sample_isdir sample_open.

(** The same tree seen from another working directory. *)
Definition sample_env_elsewhere : Env := mkEnv "/s" sample_isdir sample_open.

(* ================================================================= *)
(** ** [read_file_content] (scan_file.py, lines 72-87) *)

(** What one [open] followed by [f.read()] does: it returns the text,
    raises [UnicodeDecodeError], or raises another exception. *)
Inductive attempt : Type :=
| Returns (content : string)
| RaisesDecode (msg : string)
| RaisesOther (msg : string).

(** The two ways the function opens a file. *)
Record file_reads : Type := mkReads {
  as_utf8 : attempt;      (* encoding='utf-8', errors='ignore' *)
  as_latin1 : attempt     (* encoding='latin-1', errors='ignore' *)
}.

Definition read_file_content (fs : string -> file_reads) (file_path : string)
    : string :=
  match as_utf8 (fs file_path) with
  | Returns content => content
  | RaisesDecode _ =>
      match as_latin1 (fs file_path) with
      | Returns content => content
      | RaisesDecode msg => "[Binary file or cannot read: " ++ msg ++ "]"
      | RaisesOther msg => "[Binary file or cannot read: " ++ msg ++ "]"
      end
  | RaisesOther msg => "[Error reading file: " ++ msg ++ "]"
  end.

(* ================================================================= *)
(** ** [scan_directory_simple] (scan_file.py, lines 89-152) *)

(** The tree [os.walk] finds below the root.  An [OpaqueDir] is listed
    among the directories but not entered: a symbolic link to a
    directory, or a directory that cannot be listed. *)
#[warnings="-register-all"]
Inductive entry : Type :=
| File (name : string)
| Dir (name : string) (children : list entry)
| OpaqueDir (name : string).

Definition entry_name (e : entry) : string :=
  match e with
  | File name => name
  | Dir name _ => name
  | OpaqueDir name => name
  end.

Definition is_dir_entry (e : entry) : bool :=
  match e with
  | File _ => false
  | Dir _ _ => true
  | OpaqueDir _ => true
  end.

(** The [dirs] and [files] of one triple [os.walk] yields. *)
Definition dirs_of (listing : list entry) : list string :=
  map entry_name (filter is_dir_entry listing).

Definition files_of (listing : list entry) : list string :=
  map entry_name (filter (fun e => negb (is_dir_entry e)) listing).

(** What the scan has done so far: the chunks written to the report,
    the lines printed, the paths handed to [read_file_content], and the
    two counters. *)
Record scan_state : Type := mkScan {
  out_f : list string;
  stdout : list string;
  reads : list string;
  file_count : nat;
  ignored_count : nat
}.

Definition write (chunk : string) (st : scan_state) : scan_state :=
  mkScan (out_f st ++ [chunk]) (stdout st) (reads st)
         (file_count st) (ignored_count st).

Definition print_lines (lines : list string) (st : scan_state) : scan_state :=
  mkScan (out_f st) (stdout st ++ lines) (reads st)
         (file_count st) (ignored_count st).

Definition count_ignored (st : scan_state) : scan_state :=
  mkScan (out_f st) (stdout st) (reads st)
         (file_count st) (ignored_count st + 1).

Definition count_file (file_path : string) (st : scan_state) : scan_state :=
  mkScan (out_f st) (stdout st) (reads st ++ [file_path])
         (file_count st + 1) (ignored_count st).

(** [str(n)] *)
Definition str_of_nat (n : nat) : string :=
  NilEmpty.string_of_uint (Nat.to_uint n).

(** [s * n] *)
Fixpoint str_times (s : string) (n : nat) : string :=
  match n with
  | O => EmptyString
  | S k => s ++ str_times s k
  end.

(** The three pictographs of the report, each one character in the
    source, here as the bytes of its UTF-8 form. *)
Definition folder_sign : string := "📁".
Definition page_sign : string := "📄".
Definition pin_sign : string := "📍".

(** Lines 110-114: the loop that collects [dirs_to_remove]. *)
Fixpoint mark_dirs (env : Env) (patterns : list string) (root_dir root : string)
    (dirs : list string) (st : scan_state) : list string * scan_state :=
  match dirs with
  | [] => ([], st)
  | d :: rest =>
      let dir_path := posixpath.join root d in
      let '(ignored, printed) := should_ignore env dir_path patterns root_dir in
      let st := print_lines printed st in
      if ignored then
        let '(dirs_to_remove, st) :=
          mark_dirs env patterns root_dir root rest (count_ignored st) in
        (d :: dirs_to_remove, st)
      else mark_dirs env patterns root_dir root rest st
  end.

(** [l.remove(x)]: the list without its first [x]. *)
Fixpoint list_remove (x : string) (l : list string) : list string :=
  match l with
  | [] => []
  | y :: r => if String.eqb y x then r else y :: list_remove x r
  end.

(** Lines 126-145: the loop over the files of one directory. *)
Fixpoint for_files (env : Env) (fs : string -> file_reads)
    (patterns : list string) (root_dir root : string)
    (files : list string) (st : scan_state) : scan_state :=
  match files with
  | [] => st
  | file :: rest =>
      let file_path := posixpath.join root file in
      let '(ignored, printed) := should_ignore env file_path patterns root_dir in
      let st := print_lines printed st in
      if ignored then
        for_files env fs patterns root_dir root rest (count_ignored st)
      else
        let st := count_file file_path st in
        let st := print_lines ["  Reading: " ++ file] st in
        let st := write (newline ++ page_sign ++ " FILE: " ++ file ++ newline) st in
        let st := write (pin_sign ++ " Path: " ++ file_path ++ newline) st in
        let st := write (str_times "-" 40 ++ newline) st in
        let content := read_file_content fs file_path in
        let st := write content st in
        let st :=
          if negb (String.eqb content EmptyString)
             && negb (endswith content newline)
          then write newline st else st in
        let st := write (str_times "-" 40 ++ newline ++ newline) st in
        for_files env fs patterns root_dir root rest st
  end.

(** How the scan ends: normally, or with an exception that leaves the
    function. *)
Inductive outcome : Type :=
| Done (st : scan_state)
| Failed (st : scan_state) (e : exn).

(** Lines 105-145: the body of the [for root, dirs, files in os.walk]
    loop for one triple.  It returns [dirs] as the body leaves it, which
    is what [os.walk] goes on with. *)
Definition loop_body (env : Env) (fs : string -> file_reads)
    (patterns : list string) (root_dir root : string)
    (dirs files : list string) (st : scan_state) : list string * outcome :=
  let st :=
    print_lines ["Scanning: " ++ root ++ " ("
                 ++ str_of_nat (List.length files) ++ " files)"] st in
  let '(dirs_to_remove, st) := mark_dirs env patterns root_dir root dirs st in
  let dirs := fold_left (fun ds d => list_remove d ds) dirs_to_remove dirs in
  match posixpath.relpath env root root_dir with
  | Raise e => (dirs, Failed st e)
  | Ok rel_path =>
      let st :=
        if negb (String.eqb rel_path ".") then
          write (str_times "-" 60 ++ newline)
            (write (newline ++ folder_sign ++ " DIRECTORY: " ++ rel_path
                    ++ newline) st)
        else st in
      (dirs, Done (for_files env fs patterns root_dir root files st))
  end.

(** [os.walk] below one entry of the directory [parent], top-down:
    a directory still in [dirs] is yielded, the loop body runs on it,
    and the walk goes on through what the body left of its own
    [dirs]. *)
Fixpoint walk_entry (env : Env) (fs : string -> file_reads)
    (patterns : list string) (root_dir parent : string) (dirs : list string)
    (e : entry) (o : outcome) {struct e} : outcome :=
  match o with
  | Failed _ _ => o
  | Done st =>
      match e with
      | Dir name children =>
          if existsb (String.eqb name) dirs then
            let top := posixpath.join parent name in
            let '(dirs', o') :=
              loop_body env fs patterns root_dir top
                        (dirs_of children) (files_of children) st in
            fold_left
              (fun o child =>
                 walk_entry env fs patterns root_dir top dirs' child o)
              children o'
          else o
      | File _ => o
      | OpaqueDir _ => o
      end
  end.

(** The whole function.  [listing] is what [os.walk] finds at
    [root_dir]: [None] when the root cannot be listed, in which case
    nothing is yielded.  The report file is taken to open and to accept
    every write. *)
Definition scan_directory_simple (env : Env) (fs : string -> file_reads)
    (listing : option (list entry)) (root_dir : string) : outcome :=
  let st := mkScan [] [] [] 0 0 in
  let st :=
    print_lines ["Loading .gitignore patterns from " ++ root_dir ++ "..."] st in
  let '(gitignore_patterns, printed) := load_gitignore_patterns env root_dir in
  let st := print_lines printed st in
  let st :=
    print_lines ["Found " ++ str_of_nat (List.length gitignore_patterns)
                 ++ " gitignore patterns"] st in
  let st :=
    write ("Directory Structure and File Contents for: " ++ root_dir
           ++ newline) st in
  let st := write (str_times "=" 80 ++ newline ++ newline) st in
  let st := print_lines ["Starting directory scan..."] st in
  let o :=
    match listing with
    | None => Done st
    | Some children =>
        let '(dirs, o) :=
          loop_body env fs gitignore_patterns root_dir root_dir
                    (dirs_of children) (files_of children) st in
        fold_left
          (fun o child =>
             walk_entry env fs gitignore_patterns root_dir root_dir dirs
                        child o)
          children o
    end in
  match o with
  | Failed _ _ => o
  | Done st =>
      let st := write (newline ++ newline ++ "SUMMARY:" ++ newline) st in
      let st :=
        write ("Total files processed: " ++ str_of_nat (file_count st)
               ++ newline) st in
      let st :=
        write ("Total files ignored: " ++ str_of_nat (ignored_count st)
               ++ newline) st in
      Done st
  end.

(** *** The files of a tree, each with the directories above it *)

(** Every entry below [parent], as its path, whether it is a file, and
    the paths of the directories between the root and it. *)
Fixpoint tree_entries (parent : string) (above : list string) (e : entry)
    {struct e} : list (list string * string * bool) :=
  let path := posixpath.join parent (entry_name e) in
  match e with
  | File _ => [(above, path, true)]
  | OpaqueDir _ => [(above, path, false)]
  | Dir _ children =>
      (above, path, false)
      :: flat_map (tree_entries path (above ++ [path])%list) children
  end.

Definition listing_entries (root : string) (listing : list entry)
    : list (list string * string * bool) :=
  flat_map (tree_entries root []) listing.

(** The scan's verdict on a path. *)
Definition ignored (env : Env) (patterns : list string) (root_dir : string)
    (path : string) : bool :=
  fst (should_ignore env path patterns root_dir).

(** An entry the scan gets to: no directory above it is ignored. *)
Definition reached (env : Env) (patterns : list string) (root_dir : string)
    (x : list string * string * bool) : bool :=
  forallb (fun d => negb (ignored env patterns root_dir d)) (fst (fst x)).

Definition is_file (x : list string * string * bool) : bool := snd x.

Definition entry_path (x : list string * string * bool) : string :=
  snd (fst x).

(* ================================================================= *)
(** ** [main] (scan_file.py, lines 154-183) *)

Definition lens_sign : string := "🔍".
Definition disk_sign : string := "💾".
Definition check_sign : string := "✅".
Definition chart_sign : string := "📊".
Definition barred_sign : string := "🚫".
Definition cross_sign : string := "❌".

(** The root [main] works on before it looks at the file system:
    [sys.argv[1]] when there is one, the current directory otherwise. *)
Definition chosen_root (env : Env) (argv : list string) : string :=
  match argv with
  | _ :: root_directory :: _ => root_directory
  | _ => getcwd env
  end.

(** What [main] prints, and how the scan it starts ends ([None] when it
    starts none).  [path_exists] is [os.path.exists] and [listing_at]
    what [os.walk] finds at a root.  The traceback of the [except]
    branch goes to the error stream and is not kept. *)
Definition main (env : Env) (path_exists : string -> bool)
    (fs : string -> file_reads)
    (listing_at : string -> option (list entry)) (argv : list string)
    : list string * option outcome :=
  let root_directory := chosen_root env argv in
  if negb (path_exists root_directory) then
    (["Error: Directory '" ++ root_directory ++ "' does not exist."], None)
  else
    let root_directory := posixpath.abspath env root_directory in
    let output_filename := "directory_contents.txt" in
    let printed :=
      [lens_sign ++ " Scanning directory: " ++ root_directory;
       disk_sign ++ " Output file: " ++ output_filename;
       "Please wait..." ++ newline] in
    let o :=
      scan_directory_simple env fs (listing_at root_directory)
                            root_directory in
    match o with
    | Done st =>
        let summary :=
          [newline ++ check_sign ++ " Scan completed!";
           chart_sign ++ " Files processed: " ++ str_of_nat (file_count st);
           barred_sign ++ " Files ignored: " ++ str_of_nat (ignored_count st);
           disk_sign ++ " Output saved to: " ++ output_filename] in
        (List.app printed (List.app (stdout st) summary), Some o)
    | Failed st e =>
        let failure :=
          [cross_sign ++ " Error during scanning: " ++ exn_str e] in
        (List.app printed (List.app (stdout st) failure), Some o)
    end.

(** The part of the state the counters and the reads make up. *)
Definition core (st : scan_state) : list string * nat * nat :=
  (reads st, file_count st, ignored_count st).

(** The files the scan is to read, out of the entries of a tree: those
    it gets to and does not ignore. *)
Definition kept_files (env : Env) (patterns : list string) (root_dir : string)
    (entries : list (list string * string * bool)) : list string :=
  map entry_path
      (filter (fun x => is_file x && reached env patterns root_dir x
                        && negb (ignored env patterns root_dir (entry_path x)))
              entries).

(** The entries it is to count as ignored: files and directories it gets
    to and ignores. *)
Definition dropped (env : Env) (patterns : list string) (root_dir : string)
    (entries : list (list string * string * bool)) : nat :=
  List.length
    (filter (fun x => reached env patterns root_dir x
                      && ignored env patterns root_dir (entry_path x))
            entries).

(** [st'] is [st] after reading the files [r] and ignoring [i]
    entries. *)
Definition delta (st st' : scan_state) (r : list string) (i : nat) : Prop :=
  Permutation (reads st') (reads st ++ r)
  /\ file_count st' = file_count st + List.length r
  /\ ignored_count st' = ignored_count st + i.

(** What [os.walk] finds at the root, as a list of entries. *)
Definition root_entries (root_dir : string) (listing : option (list entry))
    : list (list string * string * bool) :=
  match listing with
  | None => []
  | Some children => listing_entries root_dir children
  end.

(** The entries strictly below an entry of the directory [parent]. *)
Definition below_entries (parent : string) (above : list string) (e : entry)
    : list (list string * string * bool) :=
  match e with
  | Dir name children =>
      let path := posixpath.join parent name in
      flat_map (tree_entries path (above ++ [path])%list) children
  | File _ => []
  | OpaqueDir _ => []
  end.

(** The walk below [e] does what the tree says: it ends normally, having
    read the kept files below [e] and counted the ignored entries there. *)
Definition walk_ok (env : Env) (fs : string -> file_reads)
    (patterns : list string) (root_dir : string) (e : entry) : Prop :=
  forall parent above dirs st,
    parent <> EmptyString ->
    forallb (fun d => negb (ignored env patterns root_dir d)) above = true ->
    (is_dir_entry e = true ->
     existsb (String.eqb (entry_name e)) dirs
     = negb (ignored env patterns root_dir
               (posixpath.join parent (entry_name e)))) ->
    exists st',
      walk_entry env fs patterns root_dir parent dirs e (Done st) = Done st'
      /\ delta st st'
           (kept_files env patterns root_dir (below_entries parent above e))
           (dropped env patterns root_dir (below_entries parent above e)).

(** *** The paths the walk builds *)

(** A name a directory listing can hold: a component other than [.] and
    [..]. *)
Definition proper_name (n : string) : Prop :=
  component n /\ n <> "." /\ n <> "..".

(** The path of the entry reached from [root] through [names]:
    [os.path.join] applied once per level, as lines 111 and 127 and
    [os.walk] do. *)
Definition walked (root : string) (names : list string) : string :=
  fold_left posixpath.join names root.

(** The number of leading separators [normpath] keeps on an absolute
    path. *)
Definition leading (path : string) : nat :=
  if startswith path "//" && negb (startswith path "///") then 2 else 1.

(** A tree whose names are proper and none of which is [.git]. *)
#[warnings="-register-all"]
Inductive plain_tree : entry -> Prop :=
| plain_file (name : string) :
    proper_name name -> name <> ".git" -> plain_tree (File name)
| plain_dir (name : string) (children : list entry) :
    proper_name name -> name <> ".git" ->
    Forall plain_tree children -> plain_tree (Dir name children)
| plain_opaque (name : string) :
    proper_name name -> name <> ".git" -> plain_tree (OpaqueDir name).

(** No part of the path is [.git]. *)
Definition git_free (path : string) : Prop :=
  ~ In ".git" (pathlib.parts path).

(** *** A sample tree

    Below [/r]: the files [.gitignore] and [notes.tmp], the directories
    [.git], [build] and [pkg], and a link [lnk] to a directory. *)
Definition sample_tree : list entry :=
  [File ".gitignore";
   Dir ".git" [File "HEAD"];
   Dir "build" [Dir "out" [File "a.o"]; File "log.txt"];
   OpaqueDir "lnk";
   Dir "pkg" [File "build"; File "x.tmp"];
   File "notes.tmp"].

Definition sample_fs (p : string) : file_reads :=
  if String.eqb p "/r/build/log.txt"
  then mkReads (RaisesOther "[Errno 13] Permission denied") (Returns EmptyString)
  else if String.eqb p "/r/pkg/build"
  then mkReads (RaisesDecode "invalid start byte") (Returns "bin")
  else mkReads (Returns ("text of " ++ p)) (Returns EmptyString).

(** The same tree with a [.gitignore] of two patterns, [build/] and
    [tmp]. *)
Definition sample_env_patterns : Env :=
  mkEnv "/r" sample_isdir
        (fun p => if String.eqb p "/r/.gitignore"
                  then Readable ["build/" ++ newline; "tmp" ++ newline] None
                  else NoSuchFile).

(* ================================================================= *)
(** * Properties *)

(** ** Strings *)

Lemma sapp_assoc (a b c : string) : (a ++ b) ++ c = a ++ (b ++ c).
Proof. induction a as [|x a IH]; simpl; [reflexivity | now rewrite IH]. Qed.

Lemma sapp_nil_r (a : string) : a ++ EmptyString = a.
Proof. induction a as [|x a IH]; simpl; [reflexivity | now rewrite IH]. Qed.

Lemma slength_app (a b : string) :
  String.length (a ++ b) = String.length a + String.length b.
Proof. induction a as [|x a IH]; simpl; [reflexivity | now rewrite IH]. Qed.

Lemma startswith_spec (s p : string) :
  startswith s p = true <-> exists t, s = p ++ t.
Proof.
  revert s. induction p as [|a p IH]; intros s; simpl.
  - split; [intros _; now exists s | reflexivity].
  - destruct s as [|b t].
    + split; [discriminate | intros [u Hu]; discriminate].
    + rewrite andb_true_iff, IH. split.
      * intros [Hab [u ->]]. apply Ascii.eqb_eq in Hab. subst b. now exists u.
      * intros [u Hu]. injection Hu as -> ->. split.
        -- apply Ascii.eqb_refl.
        -- now exists u.
Qed.

Lemma startswith_app (p t : string) : startswith (p ++ t) p = true.
Proof. apply startswith_spec. now exists t. Qed.

Lemma slice_from_app (a b : string) : slice_from (String.length a) (a ++ b) = b.
Proof. induction a as [|x a IH]; simpl; [now destruct b | exact IH]. Qed.

Lemma slice_from_cut (n : nat) (s : string) :
  n <= String.length s ->
  exists pre, s = pre ++ slice_from n s /\ String.length pre = n.
Proof.
  revert s. induction n as [|n IH]; intros s Hn.
  - exists EmptyString. split; [now destruct s | reflexivity].
  - destruct s as [|c t]; simpl in Hn; [lia|].
    destruct (IH t) as [pre [Ht Hl]]; [lia|].
    exists (String c pre). simpl. split; [now rewrite <- Ht | now rewrite Hl].
Qed.

Lemma endswith_spec (s suf : string) : endswith s suf = true <-> Suffix suf s.
Proof.
  unfold endswith, Suffix. rewrite andb_true_iff, Nat.leb_le, String.eqb_eq.
  split.
  - intros [Hle Heq].
    destruct (slice_from_cut (String.length s - String.length suf) s)
      as [pre [Hs _]]; [lia|].
    exists pre. now rewrite Heq in Hs.
  - intros [pre ->]. rewrite slength_app. split; [lia|].
    replace (String.length pre + String.length suf - String.length suf)
      with (String.length pre) by lia.
    apply slice_from_app.
Qed.

Lemma contains_unfold (sub s : string) :
  contains sub s =
  startswith s sub
  || match s with EmptyString => false | String _ t => contains sub t end.
Proof. now destruct s. Qed.

Lemma contains_spec (sub s : string) :
  contains sub s = true <-> Substring sub s.
Proof.
  unfold Substring. split.
  - induction s as [|c t IH]; rewrite contains_unfold, orb_true_iff.
    + intros [H | H]; [|discriminate].
      apply startswith_spec in H as [u Hu]. now exists EmptyString, u.
    + intros [H | H].
      * apply startswith_spec in H as [u Hu]. now exists EmptyString, u.
      * destruct (IH H) as [pre [post ->]]. now exists (String c pre), post.
  - intros [pre [post ->]]. induction pre as [|c pre IH].
    + rewrite contains_unfold. simpl. now rewrite startswith_app.
    + rewrite contains_unfold. simpl (match _ with EmptyString => _ | String _ _ => _ end).
      now rewrite IH, orb_true_r.
Qed.

Lemma Suffix_Substring (x s : string) : Suffix x s -> Substring x s.
Proof. intros [pre ->]. exists pre, EmptyString. now rewrite sapp_nil_r. Qed.

Lemma Substring_refl (s : string) : Substring s s.
Proof. exists EmptyString, EmptyString. simpl. now rewrite sapp_nil_r. Qed.

Lemma Substring_tail (a x s : string) : Substring (a ++ x) s -> Substring x s.
Proof.
  intros [pre [post ->]]. exists (pre ++ a), post.
  now rewrite !sapp_assoc.
Qed.

Lemma endswith_contains (s x : string) :
  endswith s x = true -> contains x s = true.
Proof.
  intros H. apply contains_spec, Suffix_Substring. now apply endswith_spec.
Qed.

Lemma orb_absorb (a b : bool) : (a = true -> b = true) -> a || b = b.
Proof. destruct a, b; intros H; try reflexivity. now symmetry; apply H. Qed.

(** ** [fnmatch_path] *)

Lemma replace_app (old new : ascii) (a b : string) :
  replace old new (a ++ b) = replace old new a ++ replace old new b.
Proof. induction a as [|x a IH]; simpl; [reflexivity | now rewrite IH]. Qed.

(** Every branch of [fnmatch_path] is a substring test. *)
Lemma fnmatch_path_contains (path pattern : string) :
  fnmatch_path path pattern =
  contains (strip_star_prefix (replace backslash slash pattern))
           (replace backslash slash path).
Proof.
  unfold fnmatch_path, strip_star_prefix.
  set (c := replace backslash slash path).
  set (p := replace backslash slash pattern).
  destruct (startswith p "*/").
  - apply orb_absorb, endswith_contains.
  - destruct (startswith p "**/"); [reflexivity|].
    apply orb_absorb. intros H.
    apply orb_true_iff in H as [H | H].
    + apply String.eqb_eq in H. rewrite H.
      apply contains_spec, Substring_refl.
    + apply contains_spec, (Substring_tail "/"), Suffix_Substring.
      now apply endswith_spec.
Qed.

(** The reference definition and the code agree. *)
Lemma fnmatch_path_Match_reference (candidate pattern : string) :
  fnmatch_path candidate pattern = true <-> Match_reference candidate pattern.
Proof.
  unfold fnmatch_path, Match_reference.
  set (c := replace backslash slash candidate).
  set (p := replace backslash slash pattern).
  destruct (startswith p "*/") eqn:H1.
  - apply startswith_spec in H1 as [q Hq]. rewrite Hq.
    change (slice_from 2 ("*/" ++ q)) with q.
    rewrite orb_true_iff, endswith_spec, contains_spec. split.
    + intros H. left. now exists q.
    + intros [[q' [E H]] | [[q' [E _]] | [N _]]].
      * now injection E as ->.
      * discriminate E.
      * now destruct (N q).
  - destruct (startswith p "**/") eqn:H2.
    + apply startswith_spec in H2 as [q Hq]. rewrite Hq.
      change (slice_from 3 ("**/" ++ q)) with q.
      rewrite contains_spec. split.
      * intros H. right. left. now exists q.
      * intros [[q' [E _]] | [[q' [E H]] | [_ [N _]]]].
        -- discriminate E.
        -- now injection E as ->.
        -- now destruct (N q).
    + rewrite !orb_true_iff, String.eqb_eq, endswith_spec, contains_spec.
      split.
      * intros H. right. right. repeat split.
        -- intros q E. rewrite E, startswith_app in H1. discriminate.
        -- intros q E. rewrite E, startswith_app in H2. discriminate.
        -- tauto.
      * intros [[q [E _]] | [[q [E _]] | [_ [_ H]]]].
        -- rewrite E, startswith_app in H1. discriminate.
        -- rewrite E, startswith_app in H2. discriminate.
        -- tauto.
Qed.

(** C3. [fnmatch_path] normalizes backslashes in both strings and then
    decides exactly as the three-case reference definition: a [*/]
    pattern matches when the candidate ends with or contains the rest, a
    [**/] pattern when the candidate contains the rest, any other pattern
    when the candidate equals it, ends with [/] and the pattern, or
    contains it; with the three documented examples. *)
Theorem fnmatch_path_three_cases :
  (forall candidate pattern,
      fnmatch_path candidate pattern = true
      <-> Match_reference candidate pattern)
  /\ fnmatch_path "src/catalog.txt" "log" = true
  /\ fnmatch_path "a/b/cache" "*/cache" = true
  /\ fnmatch_path "a/b/node_modules/x.js" "**/node_modules" = true.
Proof.
  split; [exact fnmatch_path_Match_reference|].
  repeat split; reflexivity.
Qed.

Lemma strip_star_prefix_bare (p : string) :
  startswith p "*/" = false -> startswith p "**/" = false ->
  strip_star_prefix p = p.
Proof. unfold strip_star_prefix. now intros -> ->. Qed.

(** C10. Every branch of [fnmatch_path] is a substring test: the call is
    true exactly when the normalized pattern without its leading [*/] or
    [**/] occurs in the normalized candidate; hence [*/p] and [**/p]
    always agree, and both agree with [p] when [p] carries no such
    prefix. *)
Theorem fnmatch_path_substring_only (candidate p : string) :
  (fnmatch_path candidate p = true
   <-> Substring (strip_star_prefix (replace backslash slash p))
                 (replace backslash slash candidate))
  /\ fnmatch_path candidate ("*/" ++ p) = fnmatch_path candidate ("**/" ++ p)
  /\ (startswith (replace backslash slash p) "*/" = false ->
      startswith (replace backslash slash p) "**/" = false ->
      fnmatch_path candidate ("*/" ++ p) = fnmatch_path candidate p).
Proof.
  repeat split.
  - rewrite fnmatch_path_contains. apply contains_spec.
  - rewrite fnmatch_path_contains. apply contains_spec.
  - now rewrite !fnmatch_path_contains.
  - intros H1 H2. rewrite !fnmatch_path_contains.
    now rewrite (strip_star_prefix_bare _ H1 H2).
Qed.

Lemma fnmatch_path_substring_only_witness :
  fnmatch_path "src/catalog.txt" "*/log" = fnmatch_path "src/catalog.txt" "log".
Proof.
  exact (proj2 (proj2 (fnmatch_path_substring_only "src/catalog.txt" "log"))
               eq_refl eq_refl).
Defined.

(** ** [posixpath] and [pathlib] *)

Lemma relpath_raises_iff (env : Env) (path start : string) :
  (path = EmptyString ->
   posixpath.relpath env path start = Raise (ValueError "no path specified"))
  /\ (path <> EmptyString -> exists rel, posixpath.relpath env path start = Ok rel).
Proof.
  unfold posixpath.relpath. split.
  - now intros ->.
  - intros Hne. apply String.eqb_neq in Hne. rewrite Hne.
    match goal with |- context [match ?l with [] => _ | _ :: _ => _ end] =>
      destruct l end; eauto.
Qed.

Lemma commonprefix_same (l : list string) : posixpath.commonprefix l l = l.
Proof.
  induction l as [|x l IH]; simpl; [reflexivity|].
  now rewrite String.eqb_refl, IH.
Qed.

(** The path of a directory relative to itself is ["."]. *)
Lemma relpath_same (env : Env) (path : string) :
  path <> EmptyString -> posixpath.relpath env path path = Ok ".".
Proof.
  intros Hne. unfold posixpath.relpath.
  apply String.eqb_neq in Hne. rewrite Hne.
  rewrite commonprefix_same, Nat.sub_diag, skipn_all. reflexivity.
Qed.

Lemma parts_empty : pathlib.parts EmptyString = [].
Proof. reflexivity. Qed.

Lemma has_git_iff (l : list string) :
  existsb (String.eqb ".git") l = true <-> In ".git" l.
Proof.
  rewrite existsb_exists. split.
  - intros [x [Hin Hx]]. apply String.eqb_eq in Hx. now subst x.
  - intros Hin. exists ".git". split; [assumption | apply String.eqb_refl].
Qed.

(** ** [should_ignore] *)

Lemma for_patterns_existsb (env : Env) (path rel_path : string)
    (patterns : list string) :
  for_patterns env path rel_path patterns =
  if existsb (pattern_hits env path rel_path) patterns then Some true else None.
Proof.
  induction patterns as [|p ps IH]; simpl; [reflexivity|].
  unfold pattern_hits at 1.
  destruct (String.eqb p EmptyString); simpl; [exact IH|].
  destruct (endswith p "/").
  - destruct (isdir env path && _); simpl; [reflexivity | exact IH].
  - destruct (fnmatch_path rel_path p || _); simpl; [reflexivity | exact IH].
Qed.

(** The value [should_ignore] returns, by cases on what [relpath] does. *)
Lemma should_ignore_value (env : Env) (path : string)
    (patterns : list string) (root_dir : string) :
  should_ignore env path patterns root_dir =
  match posixpath.relpath env path root_dir with
  | Raise e => (false, [ignore_warning path e])
  | Ok rel_path =>
      (existsb (String.eqb ".git") (pathlib.parts path)
       || (negb (String.eqb rel_path ".")
           && existsb (pattern_hits env path rel_path) patterns),
       [])
  end.
Proof.
  unfold should_ignore, should_ignore_try, bind.
  destruct (posixpath.relpath env path root_dir) as [rel|e]; [|reflexivity].
  destruct (existsb (String.eqb ".git") (pathlib.parts path)); [reflexivity|].
  destruct (String.eqb rel "."); [reflexivity|].
  rewrite for_patterns_existsb.
  now destruct (existsb (pattern_hits env path rel) patterns).
Qed.

Lemma existsb_Permutation {A : Type} (f : A -> bool) (l l' : list A) :
  Permutation l l' -> existsb f l = existsb f l'.
Proof.
  induction 1 as [|x l l' _ IH|x y l|l l' l'' _ IH1 _ IH2]; simpl.
  - reflexivity.
  - now rewrite IH.
  - now destruct (f x), (f y).
  - now rewrite IH1.
Qed.

Lemma existsb_filter_out {A : Type} (f g : A -> bool) (l : list A) :
  (forall x, g x = false -> f x = false) ->
  existsb f l = existsb f (filter g l).
Proof.
  intros H. induction l as [|x l IH]; simpl; [reflexivity|].
  destruct (g x) eqn:Hg; simpl; rewrite IH; [reflexivity|].
  now rewrite (H x Hg).
Qed.

(** C1. A path with a [.git] component is ignored, whatever the
    patterns, the root and the environment; nothing is printed. *)
Theorem git_component_always_ignored (env : Env) (path : string)
    (patterns : list string) (root_dir : string) :
  In ".git" (pathlib.parts path) ->
  should_ignore env path patterns root_dir = (true, []).
Proof.
  intros Hgit. rewrite should_ignore_value.
  destruct (proj2 (relpath_raises_iff env path root_dir)) as [rel ->].
  - intros ->. now rewrite parts_empty in Hgit.
  - apply has_git_iff in Hgit. now rewrite Hgit.
Qed.

Lemma git_component_always_ignored_witness :
  should_ignore sample_env "/r/.git/HEAD" [] "/r" = (true, [])
  /\ should_ignore sample_env "/r/src/.git" ["!.git"; "src/"] "/r" = (true, []).
Proof.
  split.
  - apply git_component_always_ignored. simpl. tauto.
  - apply git_component_always_ignored. simpl. tauto.
Defined.

(** C2, as the code has it. The query for the root directory itself is
    not ignored, whatever the patterns, provided the root's own path has
    no [.git] component. *)
Theorem root_never_ignored (env : Env) (root_dir : string)
    (patterns : list string) :
  ~ In ".git" (pathlib.parts root_dir) ->
  fst (should_ignore env root_dir patterns root_dir) = false.
Proof.
  intros Hgit. rewrite should_ignore_value.
  destruct (String.eqb_spec root_dir EmptyString) as [-> | Hne]; [reflexivity|].
  rewrite (relpath_same env root_dir Hne).
  destruct (existsb (String.eqb ".git") (pathlib.parts root_dir)) eqn:E.
  - apply has_git_iff in E. contradiction.
  - reflexivity.
Qed.

Lemma root_never_ignored_witness :
  fst (should_ignore sample_env "/r" ["r"; "./"; "*/"] "/r") = false.
Proof.
  apply root_never_ignored. simpl. intros [H | [H | H]]; try discriminate H.
  exact H.
Defined.

(** C2 as stated fails: a root that lies inside a [.git] directory is
    itself ignored, since the [.git] test comes before the root test. *)
Lemma root_inside_git_is_ignored :
  posixpath.relpath sample_env "/r/.git" "/r/.git" = Ok "."
  /\ fst (should_ignore sample_env "/r/.git" [] "/r/.git") = true.
Proof. split; reflexivity. Qed.

(** *** The shape of what [relpath] returns

    [relpath] joins components with single separators, so its result
    neither ends in a separator nor holds two in a row. *)

Lemma split_slash_free (s : string) :
  Forall (fun x => slash_free x = true) (split slash s).
Proof.
  induction s as [|c t IH]; simpl.
  - now constructor.
  - destruct (Ascii.eqb c slash) eqn:Hc.
    + now constructor.
    + destruct (split slash t) as [|h r].
      * constructor; [simpl; now rewrite Hc | constructor].
      * inversion IH as [|? ? Hh Hr]; subst.
        constructor; [simpl; now rewrite Hc, Hh | assumption].
Qed.

Lemma split_single (x : string) :
  slash_free x = true -> split slash x = [x].
Proof.
  induction x as [|c t IH]; simpl; [reflexivity|].
  intros H. apply andb_true_iff in H as [Hc Ht].
  apply negb_true_iff in Hc. now rewrite Hc, (IH Ht).
Qed.

Lemma split_app_sep (x s : string) :
  slash_free x = true ->
  split slash (x ++ String slash s) = x :: split slash s.
Proof.
  induction x as [|c t IH]; simpl.
  - reflexivity.
  - intros H. apply andb_true_iff in H as [Hc Ht].
    apply negb_true_iff in Hc. now rewrite Hc, (IH Ht).
Qed.

Lemma split_join (l : list string) :
  Forall component l -> l <> [] -> split slash (PyStr.join "/" l) = l.
Proof.
  induction l as [|x l IH]; intros Hl Hne; [contradiction|].
  inversion Hl as [|? ? [_ Hx] Hl']; subst.
  destruct l as [|y r].
  - now apply split_single.
  - change (PyStr.join "/" (x :: y :: r))
      with (x ++ String slash (PyStr.join "/" (y :: r))).
    rewrite (split_app_sep _ _ Hx), IH; [reflexivity | assumption | discriminate].
Qed.

Lemma Forall_removelast_keeps {A : Type} (P : A -> Prop) (l : list A) :
  Forall P l -> Forall P (removelast l).
Proof.
  induction 1 as [|x l Hx Hl IH]; simpl; [constructor|].
  destruct l; [constructor | now constructor].
Qed.

Lemma Forall_skipn_keeps {A : Type} (P : A -> Prop) (n : nat) (l : list A) :
  Forall P l -> Forall P (skipn n l).
Proof.
  revert l. induction n as [|n IH]; intros l Hl; simpl; [assumption|].
  destruct l; [constructor|]. inversion Hl; subst. now apply IH.
Qed.

Lemma Forall_repeat_all {A : Type} (P : A -> Prop) (x : A) (n : nat) :
  P x -> Forall P (repeat x n).
Proof. intros Hx. induction n; simpl; now constructor. Qed.

Lemma norm_step_components (k : nat) (acc : list string) (comp : string) :
  Forall component acc -> slash_free comp = true ->
  Forall component (posixpath.norm_step k acc comp).
Proof.
  intros Hacc Hc. unfold posixpath.norm_step.
  destruct (String.eqb_spec comp EmptyString) as [|Hne]; simpl; [assumption|].
  destruct (String.eqb comp "."); simpl; [assumption|].
  match goal with |- Forall _ (if ?b then _ else _) => destruct b end.
  - apply Forall_app. split; [assumption|].
    constructor; [now split | constructor].
  - destruct acc; [constructor|]. now apply Forall_removelast_keeps.
Qed.

Lemma normpath_loop_components (k : nat) (comps acc : list string) :
  Forall (fun x => slash_free x = true) comps -> Forall component acc ->
  Forall component (fold_left (posixpath.norm_step k) comps acc).
Proof.
  revert acc. induction comps as [|c cs IH]; intros acc Hcs Hacc; simpl.
  - assumption.
  - inversion Hcs; subst. apply IH; [assumption|].
    now apply norm_step_components.
Qed.

Lemma component_dot : component ".".
Proof. split; [discriminate | reflexivity]. Qed.

Lemma component_dotdot : component "..".
Proof. split; [discriminate | reflexivity]. Qed.

Lemma components_dot : Forall component ["."].
Proof. constructor; [apply component_dot | constructor]. Qed.

Lemma normpath_shape (path : string) :
  exists k l, Forall component l
              /\ posixpath.normpath path
                 = posixpath.sep_times k ++ PyStr.join "/" l.
Proof.
  unfold posixpath.normpath.
  destruct (String.eqb path EmptyString).
  - exists 0, ["."]. split; [apply components_dot | reflexivity].
  - cbv zeta.
    match goal with
    | |- context [if String.eqb ?s EmptyString then "." else _] =>
        destruct (String.eqb s EmptyString)
    end.
    + exists 0, ["."]. split; [apply components_dot | reflexivity].
    + eexists _, _. split; [|reflexivity].
      apply normpath_loop_components; [apply split_slash_free | constructor].
Qed.

Lemma join_components_head (l : list string) :
  Forall component l -> l <> [] ->
  exists c t, PyStr.join "/" l = String c t /\ Ascii.eqb slash c = false.
Proof.
  intros Hl Hne. destruct l as [|x r]; [contradiction|].
  inversion Hl as [|? ? [Hx Hs] _]; subst.
  destruct x as [|c t]; [contradiction|].
  simpl in Hs. apply andb_true_iff in Hs as [Hc _].
  apply negb_true_iff in Hc. rewrite Ascii.eqb_sym in Hc.
  destruct r; simpl; eauto.
Qed.

Lemma lstrip_cons (f : ascii -> bool) (c : ascii) (t : string) :
  lstrip f (String c t) = if f c then lstrip f t else String c t.
Proof. reflexivity. Qed.

Lemma tail_list_shape (k : nat) (l : list string) :
  Forall component l ->
  posixpath.tail_list (posixpath.sep_times k ++ PyStr.join "/" l) = l.
Proof.
  intros Hl. unfold posixpath.tail_list.
  assert (Hstrip : lstrip (Ascii.eqb slash)
                     (posixpath.sep_times k ++ PyStr.join "/" l)
                   = PyStr.join "/" l).
  { induction k as [|k IH].
    - destruct l as [|x r]; [reflexivity|].
      destruct (join_components_head (x :: r) Hl) as [c [t [-> Hc]]];
        [discriminate|].
      change (posixpath.sep_times 0 ++ String c t) with (String c t).
      now rewrite lstrip_cons, Hc.
    - change (posixpath.sep_times (S k) ++ PyStr.join "/" l)
        with (String slash (posixpath.sep_times k ++ PyStr.join "/" l)).
      now rewrite lstrip_cons, Ascii.eqb_refl. }
  rewrite Hstrip. destruct l as [|x r]; [reflexivity|].
  destruct (join_components_head (x :: r) Hl) as [c [t [E _]]]; [discriminate|].
  rewrite E. simpl (String.eqb _ _). rewrite <- E.
  apply split_join; [assumption | discriminate].
Qed.

Lemma abspath_components (env : Env) (p : string) :
  Forall component (posixpath.tail_list (posixpath.abspath env p)).
Proof.
  unfold posixpath.abspath.
  destruct (normpath_shape
              (if startswith p "/" then p else posixpath.join (getcwd env) p))
    as [k [l [Hl ->]]].
  now rewrite tail_list_shape.
Qed.

Lemma relpath_shape (env : Env) (path start rel : string) :
  posixpath.relpath env path start = Ok rel ->
  exists l, l <> [] /\ Forall component l /\ rel = PyStr.join "/" l.
Proof.
  unfold posixpath.relpath. destruct (String.eqb path EmptyString); [discriminate|].
  match goal with |- context [match ?x with [] => _ | _ :: _ => _ end] =>
    set (rel_list := x) end.
  assert (Hc : Forall component rel_list).
  { apply Forall_app. split.
    - apply Forall_repeat_all, component_dotdot.
    - apply Forall_skipn_keeps, abspath_components. }
  destruct rel_list as [|x r] eqn:E.
  - intros [= <-]. exists ["."].
    repeat split; [discriminate | apply components_dot].
  - intros [= <-]. exists (x :: r). repeat split; [discriminate | assumption].
Qed.

Lemma split_cons (sep c : ascii) (t : string) :
  split sep (String c t) =
  if Ascii.eqb c sep then EmptyString :: split sep t
  else match split sep t with
       | [] => [String c EmptyString]
       | h :: r => String c h :: r
       end.
Proof. reflexivity. Qed.

(** An empty component after the first one survives a longer prefix. *)
Lemma split_prefix_keeps_empty (a s : string) :
  In EmptyString (tl (split slash s)) -> In EmptyString (tl (split slash (a ++ s))).
Proof.
  intros Hs. induction a as [|c t IH]; [exact Hs|].
  change (String c t ++ s) with (String c (t ++ s)). rewrite split_cons.
  destruct (Ascii.eqb c slash).
  - destruct (split slash (t ++ s)); [contradiction | now right].
  - destruct (split slash (t ++ s)); [contradiction | exact IH].
Qed.

Lemma split_trailing_sep (a : string) :
  In EmptyString (tl (split slash (a ++ "/"))).
Proof. apply split_prefix_keeps_empty. now left. Qed.

Lemma split_double_sep (a b : string) :
  In EmptyString (tl (split slash (a ++ "//" ++ b))).
Proof. apply split_prefix_keeps_empty. now left. Qed.

Lemma components_no_empty (l : list string) :
  Forall component l -> ~ In EmptyString (tl l).
Proof.
  intros Hl Hin. destruct l as [|x r]; [contradiction|].
  inversion Hl as [|? ? _ Hr]; subst.
  rewrite Forall_forall in Hr. now destruct (Hr EmptyString Hin).
Qed.

Lemma relpath_no_trailing_sep (env : Env) (path start q : string) :
  posixpath.relpath env path start <> Ok (q ++ "/").
Proof.
  intros H. destruct (relpath_shape _ _ _ _ H) as [l [Hne [Hl E]]].
  apply (components_no_empty l Hl).
  rewrite <- (split_join l Hl Hne), <- E. apply split_trailing_sep.
Qed.

Lemma relpath_no_double_sep (env : Env) (path start a b : string) :
  posixpath.relpath env path start <> Ok (a ++ "//" ++ b).
Proof.
  intros H. destruct (relpath_shape _ _ _ _ H) as [l [Hne [Hl E]]].
  apply (components_no_empty l Hl).
  rewrite <- (split_join l Hl Hne), <- E. apply split_double_sep.
Qed.

Lemma rstrip_cons (f : ascii -> bool) (c : ascii) (t : string) :
  rstrip f (String c t) =
  match rstrip f t with
  | EmptyString => if f c then EmptyString else String c EmptyString
  | r => String c r
  end.
Proof. reflexivity. Qed.

Lemma rstrip_total_or_trailing (q : string) :
  rstrip (Ascii.eqb slash) q = q \/ exists q', q = q' ++ "/".
Proof.
  induction q as [|c t IH]; [now left|].
  destruct IH as [IH | [q' ->]].
  - destruct t as [|d r].
    + destruct (Ascii.eqb slash c) eqn:E.
      * apply Ascii.eqb_eq in E. subst c. right. now exists EmptyString.
      * left. rewrite rstrip_cons. change (rstrip (Ascii.eqb slash) EmptyString) with EmptyString.
        now rewrite E.
    + left. now rewrite rstrip_cons, IH.
  - right. now exists (String c q').
Qed.

Lemma rstrip_app_sep (q : string) :
  rstrip (Ascii.eqb slash) (q ++ "/") = rstrip (Ascii.eqb slash) q.
Proof.
  induction q as [|c t IH]; [reflexivity|].
  change (String c t ++ "/") with (String c (t ++ "/")).
  now rewrite !rstrip_cons, IH.
Qed.

Lemma endswith_slash_nonempty (pattern : string) :
  endswith pattern "/" = true -> String.eqb pattern EmptyString = false.
Proof. now destruct pattern. Qed.

Lemma existsb_hit {A : Type} (f : A -> bool) (x : A) (l : list A) :
  In x l -> f x = true -> existsb f l = true.
Proof. intros Hin Hx. apply existsb_exists. now exists x. Qed.

(** A directory-only pattern never hits an entry that is not a
    directory. *)
Lemma directory_pattern_needs_directory (env : Env)
    (path rel_path pattern : string) :
  isdir env path = false -> endswith pattern "/" = true ->
  pattern_hits env path rel_path pattern = false.
Proof.
  intros Hdir Hend. unfold pattern_hits.
  now rewrite (endswith_slash_nonempty _ Hend), Hend, Hdir.
Qed.

(** A directory-only pattern of the set hits a directory below the root
    whose relative path is the pattern without its trailing separators,
    or lies under it. *)
Lemma directory_pattern_ignores (env : Env) (path : string)
    (patterns : list string) (root_dir pattern rel_path : string) :
  In pattern patterns ->
  endswith pattern "/" = true ->
  posixpath.relpath env path root_dir = Ok rel_path ->
  rel_path <> "." ->
  isdir env path = true ->
  rel_path = rstrip (Ascii.eqb slash) pattern
  \/ startswith rel_path (rstrip (Ascii.eqb slash) pattern ++ "/") = true ->
  should_ignore env path patterns root_dir = (true, []).
Proof.
  intros Hin Hend Hrel Hroot Hdir Hm.
  rewrite should_ignore_value, Hrel.
  apply String.eqb_neq in Hroot. rewrite Hroot.
  rewrite (existsb_hit (pattern_hits env path rel_path) pattern patterns Hin).
  - now rewrite orb_true_r.
  - unfold pattern_hits.
    rewrite (endswith_slash_nonempty _ Hend), Hend, Hdir.
    destruct Hm as [-> | ->].
    + now rewrite String.eqb_refl.
    + now rewrite orb_true_r.
Qed.

(** C4, as the code has it. For a pattern [q/] of the set: a directory
    other than the root whose relative path equals [q], or starts with
    [q/], is ignored; the same holds with every trailing separator of
    the pattern removed, as [rstrip] does.  For an entry that is not a
    directory the directory-only patterns can be dropped from the set
    without changing the outcome, and the file [build] is not ignored by
    [build/]. *)
Theorem directory_only_pattern :
  (forall env path patterns root_dir q rel_path,
      In (q ++ "/") patterns ->
      posixpath.relpath env path root_dir = Ok rel_path ->
      rel_path <> "." ->
      isdir env path = true ->
      rel_path = q \/ startswith rel_path (q ++ "/") = true ->
      should_ignore env path patterns root_dir = (true, []))
  /\ (forall env path patterns root_dir pattern rel_path,
         In pattern patterns ->
         endswith pattern "/" = true ->
         posixpath.relpath env path root_dir = Ok rel_path ->
         rel_path <> "." ->
         isdir env path = true ->
         rel_path = rstrip (Ascii.eqb slash) pattern
         \/ startswith rel_path (rstrip (Ascii.eqb slash) pattern ++ "/")
            = true ->
         should_ignore env path patterns root_dir = (true, []))
  /\ (forall env path patterns root_dir,
         isdir env path = false ->
         should_ignore env path patterns root_dir =
         should_ignore env path
           (filter (fun p => negb (endswith p "/")) patterns) root_dir)
  /\ (isdir sample_env "/r/pkg/build" = false
      /\ posixpath.relpath sample_env "/r/pkg/build" "/r/pkg" = Ok "build"
      /\ should_ignore sample_env "/r/pkg/build" ["build/"] "/r/pkg"
         = (false, [])).
Proof.
  split; [|split; [|split]].
  - intros env path patterns root_dir q rel Hin Hrel Hroot Hdir Hm.
    destruct (rstrip_total_or_trailing q) as [Hq | [q' ->]].
    + apply (directory_pattern_ignores env path patterns root_dir (q ++ "/") rel);
        try assumption.
      * apply endswith_spec. now exists q.
      * now rewrite rstrip_app_sep, Hq.
    + exfalso. destruct Hm as [-> | Hm].
      * exact (relpath_no_trailing_sep _ _ _ _ Hrel).
      * apply startswith_spec in Hm as [t ->].
        apply (relpath_no_double_sep env path root_dir q' t).
        now rewrite Hrel, !sapp_assoc.
  - exact directory_pattern_ignores.
  - intros env path patterns root_dir Hdir.
    rewrite !should_ignore_value.
    destruct (posixpath.relpath env path root_dir) as [rel|e]; [|reflexivity].
    rewrite <- (existsb_filter_out (pattern_hits env path rel)); [reflexivity|].
    intros p Hp. apply negb_false_iff in Hp.
    now apply directory_pattern_needs_directory.
  - repeat split; reflexivity.
Qed.

Lemma directory_only_pattern_witness :
  should_ignore sample_env "/r/build" ["*.tmp"; "build/"] "/r" = (true, [])
  /\ should_ignore sample_env "/r/build/out" ["*.tmp"; "build/"] "/r" = (true, [])
  /\ should_ignore sample_env "/r/build/out" ["build//"] "/r" = (true, [])
  /\ should_ignore sample_env "/r/pkg/build" ["build/"; "x"] "/r/pkg"
     = should_ignore sample_env "/r/pkg/build" ["x"] "/r/pkg".
Proof.
  split; [|split; [|split]].
  - apply (proj1 directory_only_pattern sample_env "/r/build"
             ["*.tmp"; "build/"] "/r" "build" "build").
    + simpl. tauto.
    + reflexivity.
    + discriminate.
    + reflexivity.
    + left. reflexivity.
  - apply (proj1 directory_only_pattern sample_env "/r/build/out"
             ["*.tmp"; "build/"] "/r" "build" "build/out").
    + simpl. tauto.
    + reflexivity.
    + discriminate.
    + reflexivity.
    + right. reflexivity.
  - apply (proj1 (proj2 directory_only_pattern) sample_env "/r/build/out"
             ["build//"] "/r" "build//" "build/out").
    + simpl. tauto.
    + reflexivity.
    + reflexivity.
    + discriminate.
    + reflexivity.
    + right. reflexivity.
  - apply (proj1 (proj2 (proj2 directory_only_pattern)) sample_env
             "/r/pkg/build" ["build/"; "x"] "/r/pkg").
    reflexivity.
Defined.

(** C4 as stated fails at the root: with the pattern [./] the root
    directory has the stripped pattern as its relative path and is a
    directory, yet it is not ignored. *)
Lemma dot_slash_pattern_spares_root :
  endswith "./" "/" = true
  /\ isdir sample_env "/r" = true
  /\ posixpath.relpath sample_env "/r" "/r"
     = Ok (rstrip (Ascii.eqb slash) "./")
  /\ fst (should_ignore sample_env "/r" ["./"] "/r") = false.
Proof. repeat split; reflexivity. Qed.

(** C7. [should_ignore] always returns: when the body of its [try]
    raises, in particular when [relpath] does, the exception is caught,
    one warning line is printed and the result is [False]. *)
Theorem should_ignore_never_raises (env : Env) (path : string)
    (patterns : list string) (root_dir : string) :
  exists b log,
    should_ignore env path patterns root_dir = (b, log)
    /\ (forall e,
           should_ignore_try env path patterns root_dir = Raise e ->
           b = false /\ log = [ignore_warning path e])
    /\ (forall e,
           posixpath.relpath env path root_dir = Raise e ->
           b = false /\ log = [ignore_warning path e]).
Proof.
  unfold should_ignore.
  destruct (should_ignore_try env path patterns root_dir) as [[b|]|e] eqn:Htry.
  - exists b, []. split; [reflexivity|]. split; [discriminate|].
    intros e He. unfold should_ignore_try in Htry. now rewrite He in Htry.
  - exists false, []. split; [reflexivity|]. split; [discriminate|].
    intros e He. unfold should_ignore_try in Htry. now rewrite He in Htry.
  - exists false, [ignore_warning path e]. split; [reflexivity|]. split.
    + now intros e' [= ->].
    + intros e' He. unfold should_ignore_try in Htry.
      rewrite He in Htry. simpl in Htry. now injection Htry as ->.
Qed.

Lemma should_ignore_never_raises_witness :
  posixpath.relpath sample_env EmptyString "/r" = Raise (ValueError "no path specified")
  /\ should_ignore sample_env EmptyString ["build/"] "/r"
     = (false, ["Warning: Error checking ignore for : no path specified"]).
Proof.
  split; [reflexivity|].
  destruct (should_ignore_never_raises sample_env EmptyString ["build/"] "/r")
    as [b [log [Hv [_ Hrel]]]].
  destruct (Hrel (ValueError "no path specified") eq_refl) as [-> ->].
  exact Hv.
Defined.

(** C8. Reordering the patterns changes neither the result nor what is
    printed. *)
Theorem pattern_order_irrelevant (env : Env) (path : string)
    (patterns patterns' : list string) (root_dir : string) :
  Permutation patterns patterns' ->
  should_ignore env path patterns root_dir
  = should_ignore env path patterns' root_dir.
Proof.
  intros Hperm. rewrite !should_ignore_value.
  destruct (posixpath.relpath env path root_dir) as [rel|e]; [|reflexivity].
  now rewrite (existsb_Permutation (pattern_hits env path rel) _ _ Hperm).
Qed.

Lemma pattern_order_irrelevant_witness :
  should_ignore sample_env "/r/build/out" ["out"; "build/"; "*.tmp"] "/r"
  = should_ignore sample_env "/r/build/out" ["*.tmp"; "out"; "build/"] "/r".
Proof.
  apply pattern_order_irrelevant.
  apply Permutation_sym, (Permutation_cons_app ["out"; "build/"] []).
  apply Permutation_refl.
Defined.

(** [relpath] consults the working directory only for a relative
    argument. *)
Lemma relpath_env (env1 env2 : Env) (path start : string) :
  getcwd env1 = getcwd env2
  \/ (startswith path "/" = true /\ startswith start "/" = true) ->
  posixpath.relpath env1 path start = posixpath.relpath env2 path start.
Proof.
  unfold posixpath.relpath, posixpath.abspath.
  intros [Hcwd | [Hp Hs]].
  - now rewrite Hcwd.
  - now rewrite Hp, Hs.
Qed.

Lemma pattern_hits_env (env1 env2 : Env) (path rel_path : string)
    (patterns : list string) :
  isdir env1 path = isdir env2 path ->
  existsb (pattern_hits env1 path rel_path) patterns
  = existsb (pattern_hits env2 path rel_path) patterns.
Proof.
  intros Hdir. induction patterns as [|p ps IH]; simpl; [reflexivity|].
  rewrite IH. unfold pattern_hits. now rewrite Hdir.
Qed.

(** C9, as the code has it. The result and the printed lines are a
    function of the arguments, of whether the entry is a directory and
    of the current working directory; the working directory is read only
    when the path or the root is relative.  Two environments that agree
    on the entry's directory-ness, and on the working directory unless
    both paths are absolute, give the same outcome. *)
Theorem should_ignore_deterministic (env1 env2 : Env) (path : string)
    (patterns : list string) (root_dir : string) :
  isdir env1 path = isdir env2 path ->
  getcwd env1 = getcwd env2
  \/ (startswith path "/" = true /\ startswith root_dir "/" = true) ->
  should_ignore env1 path patterns root_dir
  = should_ignore env2 path patterns root_dir.
Proof.
  intros Hdir Hcwd. rewrite !should_ignore_value.
  rewrite (relpath_env env1 env2 path root_dir Hcwd).
  destruct (posixpath.relpath env2 path root_dir) as [rel|e]; [|reflexivity].
  now rewrite (pattern_hits_env env1 env2 path rel patterns Hdir).
Qed.

Lemma should_ignore_deterministic_witness :
  should_ignore sample_env "/r/build" ["build/"] "/r"
  = should_ignore sample_env_elsewhere "/r/build" ["build/"] "/r"
  /\ should_ignore sample_env "pkg/build" ["build"] "."
     = should_ignore (mkEnv "/r" sample_isdir (fun _ => NoSuchFile))
                     "pkg/build" ["build"] ".".
Proof.
  split.
  - apply should_ignore_deterministic.
    + reflexivity.
    + right. split; reflexivity.
  - apply should_ignore_deterministic.
    + reflexivity.
    + left. reflexivity.
Defined.

(** C9 as stated fails for a relative root: the same path, patterns,
    root and directory-ness give different results under two working
    directories. *)
Lemma should_ignore_depends_on_cwd :
  isdir sample_env "/r/a" = isdir sample_env_elsewhere "/r/a"
  /\ posixpath.relpath sample_env "/r/a" "." = Ok "a"
  /\ posixpath.relpath sample_env_elsewhere "/r/a" "." = Ok "../r/a"
  /\ fst (should_ignore sample_env "/r/a" ["r"] ".") = false
  /\ fst (should_ignore sample_env_elsewhere "/r/a" ["r"] ".") = true.
Proof. repeat split; reflexivity. Qed.

(** ** [load_gitignore_patterns] *)

Lemma lstrip_blank (line : string) :
  blank line = true -> lstrip isspace line = EmptyString.
Proof.
  induction line as [|c t IH]; simpl; [reflexivity|].
  destruct (isspace c); simpl; [exact IH | discriminate].
Qed.

Lemma lstrip_not_blank (line : string) :
  blank line = false ->
  exists c t, lstrip isspace line = String c t
              /\ isspace c = false
              /\ first_non_whitespace line = Some c.
Proof.
  induction line as [|c t IH]; simpl; [discriminate|].
  destruct (isspace c) eqn:Hc; simpl.
  - exact IH.
  - intros _. now exists c, t.
Qed.

Lemma rstrip_keeps_head (f : ascii -> bool) (c : ascii) (t : string) :
  f c = false -> exists t', rstrip f (String c t) = String c t'.
Proof.
  intros Hc. simpl. destruct (rstrip f t) as [|d r].
  - rewrite Hc. now exists EmptyString.
  - now exists (String d r).
Qed.

(** The test of the loop on the stripped line is the rule on the line as
    read. *)
Lemma line_kept (line : string) :
  negb (String.eqb (strip line) EmptyString) && negb (startswith (strip line) "#")
  = negb (blank line) && negb (comment line).
Proof.
  unfold strip, comment. destruct (blank line) eqn:Hb.
  - now rewrite (lstrip_blank _ Hb).
  - destruct (lstrip_not_blank _ Hb) as [c [t [-> [Hc ->]]]].
    destruct (rstrip_keeps_head isspace c t Hc) as [t' ->].
    simpl. now rewrite andb_true_r, Ascii.eqb_sym.
Qed.

Lemma for_lines_acc (lines patterns : list string) :
  for_lines lines patterns = (patterns ++ Load_reference lines)%list.
Proof.
  revert patterns. unfold Load_reference.
  induction lines as [|l ls IH]; intros patterns; simpl.
  - now rewrite app_nil_r.
  - rewrite line_kept.
    destruct (negb (blank l) && negb (comment l)); simpl.
    + now rewrite IH, <- app_assoc.
    + apply IH.
Qed.

Lemma for_lines_reference (lines : list string) :
  for_lines lines [] = Load_reference lines.
Proof. apply for_lines_acc. Qed.

(** C5. When the file is read to its end, the loader returns, in input
    order, the stripped form of every line that is neither blank nor a
    comment, and prints nothing; on the four lines of the example the
    loop leaves exactly [dist/] and [*.tmp]. *)
Theorem load_parses_lines (env : Env) (root_dir : string)
    (lines : list string) :
  open_file env (posixpath.join root_dir ".gitignore") = Readable lines None ->
  load_gitignore_patterns env root_dir = (Load_reference lines, [])
  /\ for_lines ["# comment"; EmptyString; "dist/"; "*.tmp"] []
     = ["dist/"; "*.tmp"].
Proof.
  intros Hopen. split; [|reflexivity].
  unfold load_gitignore_patterns. rewrite Hopen.
  now rewrite for_lines_reference.
Qed.

Lemma load_parses_lines_witness :
  load_gitignore_patterns sample_env "/r" = (["dist/"; "*.tmp"], []).
Proof.
  exact (proj1 (load_parses_lines sample_env "/r"
                  (map (fun l => l ++ newline)
                       ["# comment"; EmptyString; "dist/"; "*.tmp"]) eq_refl)).
Defined.

(** C6, as the code has it. The loader always returns.  With no file it
    returns no pattern and prints nothing; when [open] raises it returns
    no pattern and prints one warning; when the read raises part-way it
    returns the patterns of the lines read so far and prints one
    warning; otherwise it returns the parsed patterns and prints
    nothing. *)
Theorem load_never_raises (env : Env) (root_dir : string) :
  load_gitignore_patterns env root_dir =
  match open_file env (posixpath.join root_dir ".gitignore") with
  | NoSuchFile => ([], [])
  | OpenFails e => ([], [load_warning e])
  | Readable lines (Some e) => (Load_reference lines, [load_warning e])
  | Readable lines None => (Load_reference lines, [])
  end.
Proof.
  unfold load_gitignore_patterns.
  destruct (open_file env (posixpath.join root_dir ".gitignore"))
    as [|e|lines [e|]]; try reflexivity; now rewrite for_lines_reference.
Qed.

(** C6 as stated fails: a read that raises after the first line leaves
    that line's pattern in the returned set, and a missing file prints
    no warning. *)
Lemma load_keeps_lines_read_before_failure :
  open_file sample_env (posixpath.join "/r/pkg" ".gitignore")
  = Readable ["dist/" ++ newline]
             (Some (OSError "[Errno 5] Input/output error"))
  /\ load_gitignore_patterns sample_env "/r/pkg"
     = (["dist/"],
        ["Warning: Could not read .gitignore: [Errno 5] Input/output error"])
  /\ open_file sample_env (posixpath.join "/r/src" ".gitignore") = NoSuchFile
  /\ load_gitignore_patterns sample_env "/r/src" = ([], []).
Proof. repeat split; reflexivity. Qed.

(* ================================================================= *)
(** * Further properties *)

(** ** [fnmatch_path]: what a pattern can and cannot match *)

Lemma Substring_trans (a b c : string) :
  Substring a b -> Substring b c -> Substring a c.
Proof.
  intros [p1 [q1 ->]] [p2 [q2 ->]]. exists (p2 ++ p1), (q1 ++ q2).
  now rewrite !sapp_assoc.
Qed.

Lemma Substring_extend (x s pre post : string) :
  Substring x s -> Substring x (pre ++ s ++ post).
Proof.
  intros H. apply (Substring_trans x s); [assumption|]. now exists pre, post.
Qed.

Lemma replace_idempotent (s : string) :
  replace backslash slash (replace backslash slash s)
  = replace backslash slash s.
Proof.
  induction s as [|c t IH]; simpl; [reflexivity|]. rewrite IH.
  destruct (Ascii.eqb c backslash) eqn:E; [reflexivity|]. now rewrite E.
Qed.

(** X1. Nothing in a pattern is a wildcard: a character that occurs in
    the pattern, once normalized and without its leading [*/] or [**/],
    must occur in the normalized candidate, or the match fails.  A name
    without an asterisk is never matched by [*.tmp]. *)
Theorem fnmatch_path_needs_every_character (a : ascii)
    (candidate pattern : string) :
  contains (String a EmptyString)
           (strip_star_prefix (replace backslash slash pattern)) = true ->
  contains (String a EmptyString) (replace backslash slash candidate) = false ->
  fnmatch_path candidate pattern = false.
Proof.
  intros Hp Hc. rewrite fnmatch_path_contains.
  destruct (contains (strip_star_prefix (replace backslash slash pattern))
                     (replace backslash slash candidate)) eqn:E;
    [|reflexivity].
  apply contains_spec in Hp, E.
  pose proof (Substring_trans _ _ _ Hp E) as H.
  apply contains_spec in H. congruence.
Qed.

Lemma fnmatch_path_needs_every_character_witness :
  fnmatch_path "notes.tmp" "*.tmp" = false
  /\ fnmatch_path "src/main.py" "*/m?in.py" = false.
Proof.
  split.
  - apply (fnmatch_path_needs_every_character "*"); reflexivity.
  - apply (fnmatch_path_needs_every_character "?"); reflexivity.
Defined.

(** X2. A match survives any extension of the candidate: what matches a
    path matches every longer string that contains it, so a pattern that
    matches a directory's relative path matches every relative path
    below it. *)
Theorem fnmatch_path_extends (candidate pattern pre post : string) :
  fnmatch_path candidate pattern = true ->
  fnmatch_path (pre ++ candidate ++ post) pattern = true.
Proof.
  rewrite !fnmatch_path_contains, !replace_app. intros H.
  apply contains_spec. apply contains_spec in H.
  now apply Substring_extend.
Qed.

Lemma fnmatch_path_extends_witness :
  fnmatch_path "node_modules" "**/node_modules" = true
  /\ fnmatch_path ("a/b/" ++ "node_modules" ++ "/pkg/x.js") "**/node_modules"
     = true.
Proof.
  split; [reflexivity|].
  apply fnmatch_path_extends. reflexivity.
Defined.

(** X3. The two separators are interchangeable in both arguments:
    writing a backslash as a slash, in the candidate or in the pattern,
    leaves the result unchanged. *)
Theorem fnmatch_path_separator_blind (candidate pattern : string) :
  fnmatch_path (replace backslash slash candidate) pattern
  = fnmatch_path candidate pattern
  /\ fnmatch_path candidate (replace backslash slash pattern)
     = fnmatch_path candidate pattern.
Proof.
  split; rewrite !fnmatch_path_contains; now rewrite replace_idempotent.
Qed.

(** ** [should_ignore]: edge cases and composition *)

Lemma ignored_without_patterns (env : Env) (path root_dir : string) :
  ignored env [] root_dir path
  = existsb (String.eqb ".git") (pathlib.parts path).
Proof.
  unfold ignored. rewrite should_ignore_value.
  destruct (String.eqb_spec path EmptyString) as [-> | Hne].
  - reflexivity.
  - destruct (proj2 (relpath_raises_iff env path root_dir) Hne) as [rel ->].
    cbn [fst existsb]. now rewrite andb_false_r, orb_false_r.
Qed.

(** X4. With no pattern at all, a path is ignored exactly when one of
    its parts is [.git]. *)
Theorem should_ignore_without_patterns (env : Env) (path root_dir : string) :
  fst (should_ignore env path [] root_dir)
  = existsb (String.eqb ".git") (pathlib.parts path).
Proof.
  rewrite should_ignore_value.
  destruct (String.eqb_spec path EmptyString) as [-> | Hne].
  - reflexivity.
  - destruct (proj2 (relpath_raises_iff env path root_dir) Hne) as [rel ->].
    cbn [fst existsb]. now rewrite andb_false_r, orb_false_r.
Qed.

(** X5. The verdict on two pattern lists put together is the
    disjunction of the two verdicts: a pattern can add to what is
    ignored and never take away from it. *)
Theorem should_ignore_app (env : Env) (path : string)
    (patterns more : list string) (root_dir : string) :
  fst (should_ignore env path (patterns ++ more) root_dir)
  = fst (should_ignore env path patterns root_dir)
    || fst (should_ignore env path more root_dir).
Proof.
  rewrite !should_ignore_value.
  destruct (posixpath.relpath env path root_dir) as [rel|e]; [|reflexivity].
  cbn [fst]. rewrite existsb_app.
  destruct (existsb (String.eqb ".git") (pathlib.parts path)),
    (negb (String.eqb rel ".")),
    (existsb (pattern_hits env path rel) patterns),
    (existsb (pattern_hits env path rel) more); reflexivity.
Qed.



(** ** [load_gitignore_patterns]: what a loaded pattern looks like *)

Lemma lstrip_fixed (f : ascii -> bool) (c : ascii) (t : string) :
  f c = false -> lstrip f (String c t) = String c t.
Proof. intros H. simpl. now rewrite H. Qed.

Lemma rstrip_idempotent (f : ascii -> bool) (s : string) :
  rstrip f (rstrip f s) = rstrip f s.
Proof.
  induction s as [|c t IH]; [reflexivity|].
  rewrite (rstrip_cons f c t).
  destruct (rstrip f t) as [|d r] eqn:E.
  - destruct (f c) eqn:Hc; [reflexivity|].
    rewrite rstrip_cons. simpl. now rewrite Hc.
  - rewrite rstrip_cons, IH. reflexivity.
Qed.

Lemma strip_idempotent (s : string) : strip (strip s) = strip s.
Proof.
  unfold strip. destruct (blank s) eqn:Hb.
  - now rewrite (lstrip_blank _ Hb).
  - destruct (lstrip_not_blank _ Hb) as [c [t [-> [Hc _]]]].
    destruct (rstrip_keeps_head isspace c t Hc) as [t' E].
    rewrite E, (lstrip_fixed _ _ _ Hc), <- E. apply rstrip_idempotent.
Qed.

Lemma Load_reference_shape (lines : list string) :
  Forall (fun p => p <> EmptyString /\ startswith p "#" = false /\ strip p = p)
         (Load_reference lines).
Proof.
  unfold Load_reference. apply Forall_forall. intros p Hin.
  apply in_map_iff in Hin as [l [<- Hl]].
  apply filter_In in Hl as [_ Hk]. rewrite <- line_kept in Hk.
  apply andb_true_iff in Hk as [H1 H2].
  apply negb_true_iff in H1, H2. apply String.eqb_neq in H1.
  repeat split; [assumption | assumption | apply strip_idempotent].
Qed.

(** X7. Whatever the file does, every pattern the loader returns is
    non-empty, does not start with [#], and has no whitespace at either
    end; so the matcher's test for an empty pattern never fires on a
    loaded set. *)
Theorem loaded_patterns_are_trimmed (env : Env) (root_dir : string) :
  Forall (fun p => p <> EmptyString /\ startswith p "#" = false /\ strip p = p)
         (fst (load_gitignore_patterns env root_dir)).
Proof.
  unfold load_gitignore_patterns.
  destruct (open_file env (posixpath.join root_dir ".gitignore"))
    as [|e|lines [e|]]; simpl; try constructor;
    rewrite for_lines_reference; apply Load_reference_shape.
Qed.

(** ** [scan_directory_simple]: what is read and what is counted *)

Lemma entry_nested_ind (P : entry -> Prop) :
  (forall name, P (File name)) ->
  (forall name children, Forall P children -> P (Dir name children)) ->
  (forall name, P (OpaqueDir name)) ->
  forall e, P e.
Proof.
  intros HF HD HO. fix IH 1. intros [name|name children|name].
  - apply HF.
  - apply HD. induction children as [|c cs IHcs]; constructor.
    + apply IH.
    + exact IHcs.
  - apply HO.
Qed.

Lemma delta_refl (st : scan_state) : delta st st [] 0.
Proof.
  unfold delta. rewrite app_nil_r. simpl. repeat split; [reflexivity | lia | lia].
Qed.

Lemma delta_trans (st1 st2 st3 : scan_state) (r r' : list string) (i i' : nat) :
  delta st1 st2 r i -> delta st2 st3 r' i' -> delta st1 st3 (r ++ r') (i + i').
Proof.
  intros [Hr [Hf Hi]] [Hr' [Hf' Hi']]. repeat split.
  - rewrite Hr', app_assoc. now apply Permutation_app_tail.
  - rewrite Hf', Hf, length_app. lia.
  - lia.
Qed.

Lemma delta_perm (st st' : scan_state) (r r' : list string) (i : nat) :
  Permutation r r' -> delta st st' r i -> delta st st' r' i.
Proof.
  intros Hp [Hr [Hf Hi]]. repeat split.
  - rewrite Hr. now apply Permutation_app_head.
  - rewrite Hf. now rewrite (Permutation_length Hp).
  - exact Hi.
Qed.

Lemma delta_of_core (st st' : scan_state) (r : list string) (i : nat) :
  core st' = ((reads st ++ r)%list, file_count st + List.length r,
              ignored_count st + i) ->
  delta st st' r i.
Proof.
  unfold core, delta. intros [= -> -> ->]. repeat split; reflexivity.
Qed.

(** *** The two inner loops *)

Lemma mark_dirs_spec (env : Env) (patterns : list string)
    (root_dir root : string) (dirs : list string) (st : scan_state) :
  fst (mark_dirs env patterns root_dir root dirs st)
  = filter (fun d => ignored env patterns root_dir (posixpath.join root d)) dirs
  /\ core (snd (mark_dirs env patterns root_dir root dirs st))
     = (reads st, file_count st,
        ignored_count st
        + List.length
            (filter (fun d => ignored env patterns root_dir
                                (posixpath.join root d)) dirs)).
Proof.
  revert st. induction dirs as [|d rest IH]; intros st.
  - cbn [mark_dirs fst snd filter List.length]. unfold core.
    now rewrite Nat.add_0_r.
  - cbn [mark_dirs filter].
    assert (Hd : ignored env patterns root_dir (posixpath.join root d)
                 = fst (should_ignore env (posixpath.join root d)
                                      patterns root_dir)) by reflexivity.
    revert Hd.
    destruct (should_ignore env (posixpath.join root d) patterns root_dir)
      as [b printed].
    cbn [fst]. intros ->. destruct b.
    + destruct (IH (count_ignored (print_lines printed st))) as [H1 H2].
      destruct (mark_dirs env patterns root_dir root rest
                  (count_ignored (print_lines printed st))) as [rm st'].
      cbn [fst snd] in *. split; [now rewrite H1|].
      rewrite H2. cbn [List.length reads file_count ignored_count
                         count_ignored print_lines].
      f_equal. lia.
    + destruct (IH (print_lines printed st)) as [H1 H2]. split; assumption.
Qed.

Lemma list_remove_absent_prefix (x : string) (pre l : list string) :
  ~ In x pre -> list_remove x (pre ++ x :: l)%list = (pre ++ l)%list.
Proof.
  induction pre as [|y pre IH]; intros Hn; cbn [list_remove app].
  - now rewrite String.eqb_refl.
  - destruct (String.eqb_spec y x) as [-> | _].
    + exfalso. apply Hn. now left.
    + rewrite IH; [reflexivity|]. intros H. apply Hn. now right.
Qed.

Lemma remove_marked_prefix (P : string -> bool) (pre l : list string) :
  (forall x, In x pre -> P x = false) ->
  fold_left (fun ds d => list_remove d ds) (filter P l) (pre ++ l)%list
  = (pre ++ filter (fun x => negb (P x)) l)%list.
Proof.
  revert pre. induction l as [|x l IH]; intros pre Hpre; cbn [filter].
  - reflexivity.
  - destruct (P x) eqn:Hx; cbn [negb fold_left].
    + rewrite list_remove_absent_prefix.
      * now apply IH.
      * intros Hin. rewrite (Hpre x Hin) in Hx. discriminate.
    + change (pre ++ x :: l)%list with (pre ++ [x] ++ l)%list.
      rewrite app_assoc, IH.
      * now rewrite <- app_assoc.
      * intros y Hy. apply in_app_or in Hy as [Hy | [<- | []]];
          [now apply Hpre | assumption].
Qed.

(** What [dirs] holds once the marked names are removed. *)
Lemma remove_marked (P : string -> bool) (l : list string) :
  fold_left (fun ds d => list_remove d ds) (filter P l) l
  = filter (fun x => negb (P x)) l.
Proof. apply (remove_marked_prefix P [] l). intros x []. Qed.

Lemma core_write (chunk : string) (st : scan_state) :
  core (write chunk st) = core st.
Proof. reflexivity. Qed.

Lemma core_print (lines : list string) (st : scan_state) :
  core (print_lines lines st) = core st.
Proof. reflexivity. Qed.

Lemma for_files_core (env : Env) (fs : string -> file_reads)
    (patterns : list string) (root_dir root : string)
    (files : list string) (st : scan_state) :
  core (for_files env fs patterns root_dir root files st)
  = ((reads st
      ++ filter (fun p => negb (ignored env patterns root_dir p))
                (map (posixpath.join root) files))%list,
     file_count st
     + List.length (filter (fun p => negb (ignored env patterns root_dir p))
                           (map (posixpath.join root) files)),
     ignored_count st
     + List.length (filter (ignored env patterns root_dir)
                           (map (posixpath.join root) files))).
Proof.
  revert st. induction files as [|file rest IH]; intros st.
  - cbn [for_files map filter List.length]. unfold core.
    now rewrite app_nil_r, !Nat.add_0_r.
  - cbn [for_files map filter].
    assert (Hd : ignored env patterns root_dir (posixpath.join root file)
                 = fst (should_ignore env (posixpath.join root file)
                                      patterns root_dir)) by reflexivity.
    revert Hd.
    destruct (should_ignore env (posixpath.join root file) patterns root_dir)
      as [b printed].
    cbn [fst]. intros ->. destruct b; cbn [negb].
    + rewrite IH.
      cbn [List.length reads file_count ignored_count count_ignored print_lines].
      f_equal. lia.
    + match goal with
      | |- context [if ?c then write newline ?s else ?s] =>
          destruct c
      end; rewrite IH;
        cbn [List.length reads file_count ignored_count count_file
               print_lines write];
        rewrite <- app_assoc; cbn [app];
        repeat (match goal with |- (_, _) = (_, _) => f_equal end);
        try reflexivity; lia.
Qed.

(** *** One round of the walk *)

Lemma join_nonempty (a b : string) :
  a <> EmptyString -> posixpath.join a b <> EmptyString.
Proof.
  intros Ha. unfold posixpath.join.
  destruct (startswith b "/") eqn:Hb.
  - intros ->. discriminate.
  - destruct a as [|c t]; [contradiction|].
    destruct (String.eqb (String c t) EmptyString || endswith (String c t) "/");
      discriminate.
Qed.

Lemma loop_body_spec (env : Env) (fs : string -> file_reads)
    (patterns : list string) (root_dir root : string)
    (dirs files : list string) (st : scan_state) :
  root <> EmptyString ->
  exists st',
    loop_body env fs patterns root_dir root dirs files st
    = (filter (fun d => negb (ignored env patterns root_dir
                                (posixpath.join root d))) dirs,
       Done st')
    /\ delta st st'
         (filter (fun p => negb (ignored env patterns root_dir p))
                 (map (posixpath.join root) files))
         (List.length (filter (fun d => ignored env patterns root_dir
                                          (posixpath.join root d)) dirs)
          + List.length (filter (ignored env patterns root_dir)
                                (map (posixpath.join root) files))).
Proof.
  intros Hroot. unfold loop_body.
  set (st0 := print_lines _ st).
  destruct (mark_dirs_spec env patterns root_dir root dirs st0) as [H1 H2].
  destruct (mark_dirs env patterns root_dir root dirs st0) as [rm st1].
  cbn [fst snd] in H1, H2. subst rm.
  rewrite (remove_marked
             (fun d => ignored env patterns root_dir (posixpath.join root d))).
  destruct (proj2 (relpath_raises_iff env root root_dir) Hroot) as [rel ->].
  eexists. split; [reflexivity|].
  match goal with
  | |- delta _ (for_files _ _ _ _ _ _ ?s) _ _ => set (st2 := s)
  end.
  assert (Hc : core st2 = core st1)
    by (subst st2; destruct (negb (String.eqb rel ".")); reflexivity).
  apply delta_of_core. rewrite for_files_core.
  unfold core in Hc, H2. injection Hc as -> -> ->. injection H2 as -> -> ->.
  subst st0. cbn [reads file_count ignored_count print_lines].
  repeat (match goal with |- (_, _) = (_, _) => f_equal end);
    try reflexivity; lia.
Qed.

(** *** The entries of a tree *)

Lemma tree_entries_cons (parent : string) (above : list string) (e : entry) :
  tree_entries parent above e
  = (above, posixpath.join parent (entry_name e), negb (is_dir_entry e))
    :: below_entries parent above e.
Proof. now destruct e. Qed.

Lemma tree_entries_above (e : entry) :
  forall parent above x,
    In x (tree_entries parent above e) ->
    exists more, fst (fst x) = (above ++ more)%list.
Proof.
  induction e as [name|name children IH|name] using entry_nested_ind;
    intros parent above x Hin.
  - destruct Hin as [<- | []]. exists []. now rewrite app_nil_r.
  - cbn [tree_entries entry_name] in Hin. destruct Hin as [<- | Hin].
    + exists []. now rewrite app_nil_r.
    + apply in_flat_map in Hin as [k [Hk Hx]].
      rewrite Forall_forall in IH.
      destruct (IH k Hk _ _ _ Hx) as [more ->].
      exists ([posixpath.join parent name] ++ more)%list.
      now rewrite app_assoc.
  - destruct Hin as [<- | []]. exists []. now rewrite app_nil_r.
Qed.

Lemma filter_none {A : Type} (f : A -> bool) (l : list A) :
  (forall x, In x l -> f x = false) -> filter f l = [].
Proof.
  induction l as [|x l IH]; intros H; cbn [filter]; [reflexivity|].
  rewrite (H x (or_introl eq_refl)). apply IH.
  intros y Hy. apply H. now right.
Qed.

(** Nothing below an ignored directory is reached. *)
Lemma below_ignored_unreached (env : Env) (patterns : list string)
    (root_dir parent : string) (above : list string) (name : string)
    (children : list entry) (x : list string * string * bool) :
  ignored env patterns root_dir (posixpath.join parent name) = true ->
  In x (below_entries parent above (Dir name children)) ->
  reached env patterns root_dir x = false.
Proof.
  intros Hi Hin. cbn [below_entries] in Hin.
  apply in_flat_map in Hin as [k [_ Hx]].
  destruct (tree_entries_above k _ _ _ Hx) as [more E].
  unfold reached. rewrite E, !forallb_app. cbn [forallb].
  rewrite Hi. cbn [negb andb]. now rewrite andb_false_r.
Qed.

Lemma kept_files_app (env : Env) (patterns : list string) (root_dir : string)
    (X Y : list (list string * string * bool)) :
  kept_files env patterns root_dir (X ++ Y)
  = (kept_files env patterns root_dir X
     ++ kept_files env patterns root_dir Y)%list.
Proof. unfold kept_files. now rewrite filter_app, map_app. Qed.

Lemma dropped_app (env : Env) (patterns : list string) (root_dir : string)
    (X Y : list (list string * string * bool)) :
  dropped env patterns root_dir (X ++ Y)
  = dropped env patterns root_dir X + dropped env patterns root_dir Y.
Proof. unfold dropped. now rewrite filter_app, length_app. Qed.

Lemma kept_files_cons (env : Env) (patterns : list string) (root_dir : string)
    (x : list string * string * bool) (X : list (list string * string * bool)) :
  kept_files env patterns root_dir (x :: X)
  = ((if is_file x && reached env patterns root_dir x
         && negb (ignored env patterns root_dir (entry_path x))
      then [entry_path x] else [])
     ++ kept_files env patterns root_dir X)%list.
Proof.
  unfold kept_files. cbn [filter].
  now destruct (is_file x && reached env patterns root_dir x
                && negb (ignored env patterns root_dir (entry_path x))).
Qed.

Lemma dropped_cons (env : Env) (patterns : list string) (root_dir : string)
    (x : list string * string * bool) (X : list (list string * string * bool)) :
  dropped env patterns root_dir (x :: X)
  = (if reached env patterns root_dir x
        && ignored env patterns root_dir (entry_path x)
     then 1 else 0)
    + dropped env patterns root_dir X.
Proof.
  unfold dropped. cbn [filter].
  now destruct (reached env patterns root_dir x
                && ignored env patterns root_dir (entry_path x)).
Qed.

(** The entries of a listing, sorted into what the loop body handles and
    what the walk below each child handles. *)
Lemma children_split (env : Env) (patterns : list string)
    (root_dir top : string) (above : list string) (children : list entry) :
  forallb (fun d => negb (ignored env patterns root_dir d)) above = true ->
  Permutation
    (kept_files env patterns root_dir
       (flat_map (tree_entries top above) children))
    (filter (fun p => negb (ignored env patterns root_dir p))
            (map (posixpath.join top) (files_of children))
     ++ flat_map (fun k => kept_files env patterns root_dir
                             (below_entries top above k)) children)
  /\ dropped env patterns root_dir (flat_map (tree_entries top above) children)
     = List.length (filter (fun d => ignored env patterns root_dir
                                       (posixpath.join top d))
                           (dirs_of children))
       + List.length (filter (ignored env patterns root_dir)
                             (map (posixpath.join top) (files_of children)))
       + list_sum (map (fun k => dropped env patterns root_dir
                                   (below_entries top above k)) children).
Proof.
  intros Habove. induction children as [|k rest [IHp IHd]].
  - split; [constructor | reflexivity].
  - cbn [flat_map map list_sum].
    rewrite kept_files_app, dropped_app, tree_entries_cons.
    rewrite kept_files_cons, dropped_cons, IHd.
    unfold reached, is_file, entry_path. cbn [fst snd].
    rewrite Habove. cbn [andb]. unfold files_of, dirs_of, list_sum in *.
    assert (Hk0 : kept_files env patterns root_dir [] = []) by reflexivity.
    assert (Hd0 : dropped env patterns root_dir [] = 0) by reflexivity.
    destruct k as [name|name kids|name];
      cbn [is_dir_entry negb andb entry_name below_entries filter map];
      rewrite ?Hk0, ?Hd0;
      destruct (ignored env patterns root_dir (posixpath.join top name));
      cbn [negb map filter app List.length fold_right]; split;
      try lia.
    + exact IHp.
    + now apply Permutation_cons.
    + rewrite Permutation_app_swap_app. now apply Permutation_app_head.
    + rewrite Permutation_app_swap_app. now apply Permutation_app_head.
    + exact IHp.
    + exact IHp.
Qed.

Lemma existsb_eqb_filter (Q : string -> bool) (n : string) (l : list string) :
  In n l -> existsb (String.eqb n) (filter Q l) = Q n.
Proof.
  intros Hin. destruct (Q n) eqn:Hq.
  - apply existsb_exists. exists n. split; [|apply String.eqb_refl].
    apply filter_In. now split.
  - destruct (existsb (String.eqb n) (filter Q l)) eqn:E; [|reflexivity].
    apply existsb_exists in E as [x [Hx Ex]]. apply String.eqb_eq in Ex.
    subst x. apply filter_In in Hx as [_ Hx]. congruence.
Qed.

Lemma dir_entry_listed (k : entry) (children : list entry) :
  In k children -> is_dir_entry k = true ->
  In (entry_name k) (dirs_of children).
Proof.
  intros Hin Hd. unfold dirs_of. apply in_map, filter_In. now split.
Qed.

(** *** The walk *)

Lemma walk_entry_failed (env : Env) (fs : string -> file_reads)
    (patterns : list string) (root_dir parent : string) (dirs : list string)
    (e : entry) (st : scan_state) (x : exn) :
  walk_entry env fs patterns root_dir parent dirs e (Failed st x) = Failed st x.
Proof. now destruct e. Qed.

Lemma walk_children (env : Env) (fs : string -> file_reads)
    (patterns : list string) (root_dir top : string) (above dirs : list string)
    (children : list entry) :
  top <> EmptyString ->
  forallb (fun d => negb (ignored env patterns root_dir d)) above = true ->
  Forall (walk_ok env fs patterns root_dir) children ->
  (forall k, In k children -> is_dir_entry k = true ->
             existsb (String.eqb (entry_name k)) dirs
             = negb (ignored env patterns root_dir
                       (posixpath.join top (entry_name k)))) ->
  forall st,
  exists st',
    fold_left (fun o child =>
                 walk_entry env fs patterns root_dir top dirs child o)
              children (Done st) = Done st'
    /\ delta st st'
         (flat_map (fun k => kept_files env patterns root_dir
                               (below_entries top above k)) children)
         (list_sum (map (fun k => dropped env patterns root_dir
                                    (below_entries top above k)) children)).
Proof.
  intros Htop Habove Hok Hdirs.
  induction children as [|k rest IH]; intros st.
  - exists st. split; [reflexivity | apply delta_refl].
  - inversion Hok as [|? ? Hk Hrest]; subst.
    destruct (Hk top above dirs st Htop Habove
                 (Hdirs k (or_introl eq_refl))) as [st1 [E1 D1]].
    destruct (IH Hrest (fun k' H => Hdirs k' (or_intror H)) st1)
      as [st2 [E2 D2]].
    exists st2. split.
    + cbn [fold_left]. now rewrite E1.
    + cbn [flat_map map list_sum]. now apply (delta_trans st st1 st2).
Qed.

(** One directory and all that lies below it. *)
Lemma walk_listing (env : Env) (fs : string -> file_reads)
    (patterns : list string) (root_dir top : string) (above : list string)
    (children : list entry) (st : scan_state) :
  top <> EmptyString ->
  forallb (fun d => negb (ignored env patterns root_dir d)) above = true ->
  Forall (walk_ok env fs patterns root_dir) children ->
  exists st',
    (let '(dirs, o) :=
       loop_body env fs patterns root_dir top
                 (dirs_of children) (files_of children) st in
     fold_left (fun o child =>
                  walk_entry env fs patterns root_dir top dirs child o)
               children o) = Done st'
    /\ delta st st'
         (kept_files env patterns root_dir
            (flat_map (tree_entries top above) children))
         (dropped env patterns root_dir
            (flat_map (tree_entries top above) children)).
Proof.
  intros Htop Habove Hok.
  destruct (loop_body_spec env fs patterns root_dir top
              (dirs_of children) (files_of children) st Htop)
    as [st1 [-> D1]].
  destruct (walk_children env fs patterns root_dir top above
              (filter (fun d => negb (ignored env patterns root_dir
                                        (posixpath.join top d)))
                      (dirs_of children))
              children Htop Habove Hok) with (st := st1) as [st2 [E2 D2]].
  - intros k Hin Hd.
    apply (existsb_eqb_filter
             (fun d => negb (ignored env patterns root_dir
                               (posixpath.join top d)))).
    now apply dir_entry_listed.
  - exists st2. split; [exact E2|].
    destruct (children_split env patterns root_dir top above children Habove)
      as [Hp Hd].
    rewrite Hd. apply (delta_perm _ _ _ _ _ (Permutation_sym Hp)).
    now apply (delta_trans st st1 st2).
Qed.

Lemma walk_entry_ok (env : Env) (fs : string -> file_reads)
    (patterns : list string) (root_dir : string) (e : entry) :
  walk_ok env fs patterns root_dir e.
Proof.
  induction e as [name|name children IH|name] using entry_nested_ind;
    intros parent above dirs st Hparent Habove Hdirs.
  - exists st. split; [reflexivity | apply delta_refl].
  - specialize (Hdirs eq_refl). cbn [entry_name] in Hdirs.
    cbn [walk_entry]. rewrite Hdirs.
    destruct (ignored env patterns root_dir (posixpath.join parent name))
      eqn:Hi; cbn [negb].
    + exists st. split; [reflexivity|].
      unfold kept_files, dropped.
      rewrite !filter_none.
      * apply delta_refl.
      * intros x Hx.
        now rewrite (below_ignored_unreached _ _ _ _ _ _ _ _ Hi Hx).
      * intros x Hx.
        rewrite (below_ignored_unreached _ _ _ _ _ _ _ _ Hi Hx).
        now rewrite andb_false_r.
    + apply walk_listing; [now apply join_nonempty | | exact IH].
      rewrite forallb_app. cbn [forallb]. now rewrite Habove, Hi.
  - exists st. split; [reflexivity | apply delta_refl].
Qed.

(** The scan as a whole: it ends normally, and its reads and counters
    are those the tree and the patterns determine. *)
Lemma scan_summary (env : Env) (fs : string -> file_reads)
    (listing : option (list entry)) (root_dir : string) :
  root_dir <> EmptyString ->
  let patterns := fst (load_gitignore_patterns env root_dir) in
  let entries := root_entries root_dir listing in
  exists st,
    scan_directory_simple env fs listing root_dir = Done st
    /\ Permutation (reads st) (kept_files env patterns root_dir entries)
    /\ file_count st = List.length (reads st)
    /\ ignored_count st = dropped env patterns root_dir entries.
Proof.
  intros Hroot patterns entries. unfold scan_directory_simple.
  subst patterns.
  destruct (load_gitignore_patterns env root_dir) as [patterns printed].
  cbn [fst] in *.
  match goal with
  | |- context [print_lines ["Starting directory scan..."] ?s] =>
      set (st0 := print_lines ["Starting directory scan..."] s)
  end.
  assert (E1 : reads st0 = []) by reflexivity.
  assert (E2 : file_count st0 = 0) by reflexivity.
  assert (E3 : ignored_count st0 = 0) by reflexivity.
  assert (Hfinish : forall st r i,
             delta st0 st r i ->
             Permutation (reads st) r
             /\ file_count st = List.length (reads st)
             /\ ignored_count st = i).
  { intros st r i [Hr [Hf Hi]].
    rewrite E1 in Hr. rewrite E2 in Hf. rewrite E3 in Hi.
    cbn [app] in Hr. repeat split.
    - exact Hr.
    - rewrite Hf. cbn [Nat.add]. now rewrite (Permutation_length Hr).
    - exact Hi. }
  clearbody st0.
  destruct listing as [children|]; subst entries; cbn [root_entries].
  - destruct (walk_listing env fs patterns root_dir root_dir [] children st0
                Hroot eq_refl) as [st1 [-> D]].
    + apply Forall_forall. intros e _. apply walk_entry_ok.
    + eexists. split; [reflexivity|].
      apply (Hfinish _ _ _ D).
  - eexists. split; [reflexivity|].
    apply (Hfinish st0 [] 0), delta_refl.
Qed.

(** *** What the scan reads and counts *)

(** X8. For a non-empty root the scan ends normally, and the files it
    hands to [read_file_content] are, up to order, the files of the tree
    that are not ignored and lie below no ignored directory; the
    returned [file_count] is their number. *)
Theorem scan_reads_kept_files (env : Env) (fs : string -> file_reads)
    (listing : option (list entry)) (root_dir : string) :
  root_dir <> EmptyString ->
  exists st,
    scan_directory_simple env fs listing root_dir = Done st
    /\ Permutation
         (reads st)
         (kept_files env (fst (load_gitignore_patterns env root_dir)) root_dir
                     (root_entries root_dir listing))
    /\ file_count st = List.length (reads st).
Proof.
  intros Hroot.
  destruct (scan_summary env fs listing root_dir Hroot) as [st [E [P [F _]]]].
  exists st. auto.
Qed.

Lemma scan_reads_kept_files_witness :
  exists st,
    scan_directory_simple sample_env_patterns sample_fs (Some sample_tree) "/r"
    = Done st
    /\ Permutation (reads st) ["/r/.gitignore"; "/r/pkg/build"]
    /\ file_count st = 2.
Proof.
  destruct (scan_reads_kept_files sample_env_patterns sample_fs
              (Some sample_tree) "/r") as [st [E [P F]]].
  - discriminate.
  - exists st. split; [exact E|]. split; [exact P|].
    rewrite F. exact (Permutation_length P).
Defined.

(** X9. For a non-empty root the returned [ignored_count] is the number
    of entries, files and directories alike, that the scan gets to and
    ignores: a pruned directory counts once, and nothing below it is
    counted at all. *)
Theorem scan_counts_ignored_entries (env : Env) (fs : string -> file_reads)
    (listing : option (list entry)) (root_dir : string) :
  root_dir <> EmptyString ->
  exists st,
    scan_directory_simple env fs listing root_dir = Done st
    /\ ignored_count st
       = dropped env (fst (load_gitignore_patterns env root_dir)) root_dir
                 (root_entries root_dir listing).
Proof.
  intros Hroot.
  destruct (scan_summary env fs listing root_dir Hroot) as [st [E [_ [_ I]]]].
  exists st. auto.
Qed.

Lemma scan_counts_ignored_entries_witness :
  exists st,
    scan_directory_simple sample_env_patterns sample_fs (Some sample_tree) "/r"
    = Done st
    /\ ignored_count st = 4.
Proof.
  destruct (scan_counts_ignored_entries sample_env_patterns sample_fs
              (Some sample_tree) "/r") as [st [E I]].
  - discriminate.
  - exists st. split; [exact E | exact I].
Defined.

Lemma ignored_git_part (env : Env) (patterns : list string)
    (root_dir path : string) :
  ignored env patterns root_dir path = false ->
  ~ In ".git" (pathlib.parts path).
Proof.
  unfold ignored. rewrite should_ignore_value. intros H Hgit.
  destruct (String.eqb_spec path EmptyString) as [-> | Hne].
  - now rewrite parts_empty in Hgit.
  - destruct (proj2 (relpath_raises_iff env path root_dir) Hne) as [rel E].
    rewrite E in H. apply has_git_iff in Hgit.
    cbn [fst] in H. now rewrite Hgit in H.
Qed.

Lemma kept_files_In (env : Env) (patterns : list string) (root_dir : string)
    (entries : list (list string * string * bool)) (p : string) :
  In p (kept_files env patterns root_dir entries) ->
  exists above,
    In (above, p, true) entries
    /\ forallb (fun d => negb (ignored env patterns root_dir d)) above = true
    /\ ignored env patterns root_dir p = false.
Proof.
  unfold kept_files. intros Hin.
  apply in_map_iff in Hin as [[[above q] b] [<- Hx]].
  apply filter_In in Hx as [Hx Hk].
  unfold is_file, reached, entry_path in Hk. cbn [fst snd] in Hk.
  apply andb_true_iff in Hk as [Hk H3]. apply andb_true_iff in Hk as [H1 H2].
  subst b. apply negb_true_iff in H3. exists above. auto.
Qed.

(** X10. Whatever the patterns, the scan never reads a file whose path
    has a [.git] part, nor a file below a directory whose path has
    one. *)
Theorem scan_never_reads_git (env : Env) (fs : string -> file_reads)
    (listing : option (list entry)) (root_dir : string) (st : scan_state)
    (p : string) :
  root_dir <> EmptyString ->
  scan_directory_simple env fs listing root_dir = Done st ->
  In p (reads st) ->
  ~ In ".git" (pathlib.parts p)
  /\ exists above,
       In (above, p, true) (root_entries root_dir listing)
       /\ Forall (fun d => ~ In ".git" (pathlib.parts d)) above.
Proof.
  intros Hroot E Hin.
  destruct (scan_summary env fs listing root_dir Hroot) as [st' [E' [P _]]].
  rewrite E in E'. injection E' as <-.
  apply (Permutation_in _ P), kept_files_In in Hin
    as [above [Hx [Hab Hp]]].
  split; [now apply ignored_git_part in Hp|].
  exists above. split; [exact Hx|].
  apply Forall_forall. intros d Hd.
  rewrite forallb_forall in Hab. specialize (Hab d Hd).
  apply negb_true_iff in Hab. now apply ignored_git_part in Hab.
Qed.

Lemma scan_never_reads_git_witness :
  exists st,
    scan_directory_simple sample_env sample_fs (Some sample_tree) "/r" = Done st
    /\ In "/r/build/out/a.o" (reads st)
    /\ ~ In ".git" (pathlib.parts "/r/build/out/a.o").
Proof.
  destruct (scan_directory_simple sample_env sample_fs (Some sample_tree) "/r")
    as [st|st e] eqn:E.
  - exists st. split; [reflexivity|].
    assert (Hin : In "/r/build/out/a.o" (reads st)).
    { vm_compute in E. injection E as <-. cbn [reads].
      repeat (first [left; reflexivity | right]). }
    split; [exact Hin|].
    apply (scan_never_reads_git sample_env sample_fs (Some sample_tree) "/r"
             st "/r/build/out/a.o"); [discriminate | exact E | exact Hin].
  - vm_compute in E. discriminate E.
Defined.

Lemma forallb_pointwise {A : Type} (f g : A -> bool) (l : list A) :
  (forall x, f x = g x) -> forallb f l = forallb g l.
Proof.
  intros H. induction l as [|x l IH]; cbn [forallb]; [reflexivity|].
  now rewrite H, IH.
Qed.

(** X11. When the root has no [.gitignore], or it cannot be opened, the
    scan reads exactly the files that have no [.git] part in their own
    path or in the path of a directory above them. *)
Theorem scan_without_gitignore (env : Env) (fs : string -> file_reads)
    (listing : option (list entry)) (root_dir : string) :
  root_dir <> EmptyString ->
  (open_file env (posixpath.join root_dir ".gitignore") = NoSuchFile
   \/ exists e,
        open_file env (posixpath.join root_dir ".gitignore") = OpenFails e) ->
  exists st,
    scan_directory_simple env fs listing root_dir = Done st
    /\ Permutation
         (reads st)
         (map entry_path
            (filter
               (fun x =>
                  is_file x
                  && forallb
                       (fun d =>
                          negb (existsb (String.eqb ".git") (pathlib.parts d)))
                       (fst (fst x))
                  && negb (existsb (String.eqb ".git")
                                   (pathlib.parts (entry_path x))))
               (root_entries root_dir listing))).
Proof.
  intros Hroot Hfile.
  destruct (scan_summary env fs listing root_dir Hroot) as [st [E [P _]]].
  exists st. split; [exact E|].
  assert (Hp : fst (load_gitignore_patterns env root_dir) = []).
  { unfold load_gitignore_patterns.
    destruct Hfile as [-> | [e ->]]; reflexivity. }
  rewrite Hp in P. unfold kept_files in P.
  erewrite filter_ext in P; [exact P|].
  intros x. cbv beta. unfold reached.
  rewrite ignored_without_patterns. f_equal. f_equal.
  apply forallb_pointwise. intros d. now rewrite ignored_without_patterns.
Qed.

Lemma scan_without_gitignore_witness :
  exists st,
    scan_directory_simple sample_env sample_fs (Some sample_tree) "/r/build"
    = Done st
    /\ Permutation (reads st)
         ["/r/build/.gitignore"; "/r/build/build/out/a.o";
          "/r/build/build/log.txt"; "/r/build/pkg/build";
          "/r/build/pkg/x.tmp"; "/r/build/notes.tmp"].
Proof.
  destruct (scan_without_gitignore sample_env sample_fs (Some sample_tree)
              "/r/build") as [st [E P]].
  - discriminate.
  - right. eexists. reflexivity.
  - exists st. split; [exact E | exact P].
Defined.

(** ** The relative path of a walked entry *)

Lemma split_not_nil (sep : ascii) (s : string) : split sep s <> [].
Proof.
  destruct s as [|c t]; cbn [split]; [discriminate|].
  destruct (Ascii.eqb c sep); [discriminate|].
  destruct (split sep t); discriminate.
Qed.

Lemma split_app_slash (a s : string) :
  split slash (a ++ String slash s) = (split slash a ++ split slash s)%list.
Proof.
  induction a as [|c t IH]; [reflexivity|].
  change (String c t ++ String slash s) with (String c (t ++ String slash s)).
  rewrite !split_cons, IH.
  destruct (Ascii.eqb c slash); [reflexivity|].
  destruct (split slash t) as [|h r] eqn:E; [|reflexivity].
  now destruct (split_not_nil slash t).
Qed.

Lemma startswith_absolute (a : string) :
  startswith a "/" = true -> exists t, a = String slash t.
Proof. intros H. apply startswith_spec in H as [t ->]. now exists t. Qed.

Lemma proper_name_step (k : nat) (acc : list string) (b : string) :
  proper_name b -> posixpath.norm_step k acc b = (acc ++ [b])%list.
Proof.
  intros [[Hne _] [Hdot Hdd]]. unfold posixpath.norm_step.
  apply String.eqb_neq in Hne, Hdot, Hdd. now rewrite Hne, Hdot, Hdd.
Qed.

Lemma empty_name_step (k : nat) (acc : list string) :
  posixpath.norm_step k acc EmptyString = acc.
Proof. reflexivity. Qed.

Lemma proper_name_relative (b : string) :
  proper_name b -> startswith b "/" = false.
Proof.
  intros [[Hne Hs] _]. destruct b as [|c t]; [contradiction|].
  cbn [slash_free] in Hs. apply andb_true_iff in Hs as [Hc _].
  apply negb_true_iff in Hc. cbn [startswith].
  rewrite Ascii.eqb_sym. fold slash. now rewrite Hc.
Qed.

(** [join] puts one separator between an absolute path and a name. *)
Lemma join_shape (a b : string) :
  startswith a "/" = true -> proper_name b ->
  (endswith a "/" = false /\ posixpath.join a b = a ++ String slash b)
  \/ (exists a', a = a' ++ "/" /\ posixpath.join a b = a' ++ String slash b).
Proof.
  intros Ha Hb. unfold posixpath.join.
  rewrite (proper_name_relative b Hb).
  destruct (startswith_absolute a Ha) as [t ->].
  cbn [String.eqb orb].
  destruct (endswith (String slash t) "/") eqn:E.
  - right. apply endswith_spec in E as [a' E]. exists a'.
    split; [exact E|]. now rewrite E, sapp_assoc.
  - left. split; reflexivity.
Qed.

Lemma join_absolute (a b : string) :
  startswith a "/" = true -> proper_name b ->
  startswith (posixpath.join a b) "/" = true.
Proof.
  intros Ha Hb. destruct (startswith_absolute a Ha) as [t Et].
  destruct (join_shape a b Ha Hb) as [[_ ->] | [a' [E ->]]].
  - now rewrite Et.
  - destruct a' as [|c u].
    + reflexivity.
    + rewrite Et in E. injection E as <- _. reflexivity.
Qed.

Lemma join_leading (a b : string) :
  startswith a "/" = true -> proper_name b ->
  leading (posixpath.join a b) = leading a.
Proof.
  intros Ha Hb. pose proof (proper_name_relative b Hb) as Hrel.
  destruct b as [|b0 bt]; [now destruct Hb as [[H _] _]|].
  cbn [startswith] in Hrel. rewrite andb_true_r in Hrel.
  unfold leading.
  destruct (join_shape a (String b0 bt) Ha Hb) as [[Hend ->] | [a' [-> ->]]].
  - destruct a as [|c1 [|c2 [|c3 t]]]; try discriminate Ha.
    + cbn [startswith] in Ha. rewrite andb_true_r in Ha.
      apply Ascii.eqb_eq in Ha. subst c1. discriminate Hend.
    + cbn [append startswith andb]. cbn [startswith andb] in Ha.
      destruct (Ascii.eqb "/" c1), (Ascii.eqb "/" c2) eqn:E2;
        try reflexivity; try discriminate Ha.
      apply Ascii.eqb_eq in E2. subst c2. discriminate Hend.
    + reflexivity.
  - destruct a' as [|c1 [|c2 [|c3 t]]].
    + cbn [append startswith andb]. now rewrite Hrel.
    + cbn [append startswith andb].
      destruct (Ascii.eqb "/" c1); [|reflexivity].
      cbn [andb negb]. now rewrite Hrel.
    + reflexivity.
    + reflexivity.
Qed.

Lemma normpath_absolute (path : string) :
  startswith path "/" = true ->
  posixpath.tail_list (posixpath.normpath path)
  = fold_left (posixpath.norm_step (leading path)) (split slash path) [].
Proof.
  intros Ha. destruct (startswith_absolute path Ha) as [t Et].
  unfold posixpath.normpath, leading. rewrite Ha.
  replace (String.eqb path EmptyString) with false by now rewrite Et.
  set (k := if startswith path "//" && negb (startswith path "///")
            then 2 else 1).
  set (comps := fold_left (posixpath.norm_step k) (split slash path) []).
  assert (Hk : exists j, k = S j)
    by (subst k; destruct (startswith path "//" && negb (startswith path "///"));
        eauto).
  destruct Hk as [j Hj].
  replace (String.eqb (posixpath.sep_times k ++ PyStr.join "/" comps)
                      EmptyString) with false by now rewrite Hj.
  apply tail_list_shape.
  subst comps. apply normpath_loop_components;
    [apply split_slash_free | constructor].
Qed.

(** One more level adds one component. *)
Lemma join_tail_list (a b : string) :
  startswith a "/" = true -> proper_name b ->
  posixpath.tail_list (posixpath.normpath (posixpath.join a b))
  = (posixpath.tail_list (posixpath.normpath a) ++ [b])%list.
Proof.
  intros Ha Hb.
  rewrite (normpath_absolute _ (join_absolute a b Ha Hb)),
    (normpath_absolute _ Ha), (join_leading a b Ha Hb).
  pose proof Hb as [[_ Hs] _].
  destruct (join_shape a b Ha Hb) as [[_ ->] | [a' [-> ->]]].
  - rewrite split_app_slash, (split_single b Hs), fold_left_app.
    cbn [fold_left]. now apply proper_name_step.
  - rewrite !split_app_slash, (split_single b Hs), !fold_left_app.
    cbn [split fold_left]. rewrite empty_name_step.
    now apply proper_name_step.
Qed.

Lemma walked_tail_list (names : list string) :
  Forall proper_name names ->
  forall root,
    startswith root "/" = true ->
    startswith (walked root names) "/" = true
    /\ posixpath.tail_list (posixpath.normpath (walked root names))
       = (posixpath.tail_list (posixpath.normpath root) ++ names)%list.
Proof.
  induction 1 as [|n names Hn _ IH]; intros root Ha.
  - split; [exact Ha | now rewrite app_nil_r].
  - unfold walked. cbn [fold_left]. fold (walked (posixpath.join root n) names).
    destruct (IH (posixpath.join root n) (join_absolute root n Ha Hn))
      as [H1 H2].
    split; [exact H1|].
    rewrite H2, (join_tail_list root n Ha Hn). now rewrite <- app_assoc.
Qed.

Lemma commonprefix_app (l m : list string) :
  posixpath.commonprefix l (l ++ m) = l.
Proof.
  induction l as [|x l IH]; [now destruct m|].
  cbn [posixpath.commonprefix app]. now rewrite String.eqb_refl, IH.
Qed.

Lemma relpath_walked_value (env : Env) (root : string) (names : list string) :
  startswith root "/" = true ->
  Forall proper_name names ->
  posixpath.relpath env (walked root names) root
  = Ok (match names with
        | [] => "."
        | _ => PyStr.join "/" names
        end).
Proof.
  intros Ha Hn. destruct (walked_tail_list names Hn root Ha) as [Hw Ht].
  unfold posixpath.relpath, posixpath.abspath. rewrite Ha, Hw, Ht.
  destruct (startswith_absolute _ Hw) as [t ->]. cbn [String.eqb].
  rewrite commonprefix_app, Nat.sub_diag, skipn_app, skipn_all, Nat.sub_diag.
  cbn [repeat skipn app]. now destruct names.
Qed.

(** X12. Below an absolute root, the relative path the matcher computes
    for an entry reached through a chain of directory names is the
    names joined by [/]: what the patterns are matched against never
    has a [..], a doubled separator or the root's own components. *)
Theorem relpath_of_walked_entry (env : Env) (root : string) (n : string)
    (names : list string) :
  startswith root "/" = true ->
  Forall proper_name (n :: names) ->
  posixpath.relpath env (walked root (n :: names)) root
  = Ok (PyStr.join "/" (n :: names)).
Proof.
  intros Ha Hn. now rewrite (relpath_walked_value env root (n :: names) Ha Hn).
Qed.

Lemma relpath_of_walked_entry_witness :
  posixpath.relpath sample_env (walked "/r" ["build"; "out"; "a.o"]) "/r"
  = Ok "build/out/a.o".
Proof.
  apply (relpath_of_walked_entry sample_env "/r" "build" ["out"; "a.o"]).
  - reflexivity.
  - repeat constructor; discriminate.
Defined.

Lemma proper_names_components (names : list string) :
  Forall proper_name names -> Forall component names.
Proof. apply Forall_impl. now intros n [H _]. Qed.

Lemma walked_relpath_not_root (n : string) (names : list string) :
  Forall proper_name (n :: names) -> PyStr.join "/" (n :: names) <> ".".
Proof.
  intros Hn E.
  pose proof (split_join (n :: names) (proper_names_components _ Hn)) as Hs.
  rewrite E in Hs. specialize (Hs ltac:(discriminate)).
  injection Hs as <- _. inversion Hn as [|? ? [_ [Hdot _]] _]; subst.
  now apply Hdot.
Qed.

(** X13. Below an absolute root, a directory reached through the names
    [n1 ... nk] is ignored by the directory-only pattern [n1/.../nk/]:
    the pattern names the directory by its place under the root. *)
Theorem directory_pattern_prunes_walked (env : Env) (root : string)
    (n : string) (names patterns : list string) :
  startswith root "/" = true ->
  Forall proper_name (n :: names) ->
  isdir env (walked root (n :: names)) = true ->
  In (PyStr.join "/" (n :: names) ++ "/") patterns ->
  should_ignore env (walked root (n :: names)) patterns root = (true, []).
Proof.
  intros Ha Hn Hdir Hin.
  pose proof (relpath_walked_value env root (n :: names) Ha Hn) as Hrel.
  apply (directory_pattern_ignores env _ patterns root
           (PyStr.join "/" (n :: names) ++ "/") (PyStr.join "/" (n :: names)));
    try assumption.
  - apply endswith_spec. now exists (PyStr.join "/" (n :: names)).
  - now apply walked_relpath_not_root.
  - left. rewrite rstrip_app_sep.
    destruct (rstrip_total_or_trailing (PyStr.join "/" (n :: names)))
      as [E | [q' E]]; [now rewrite E|].
    rewrite E in Hrel. now destruct (relpath_no_trailing_sep _ _ _ _ Hrel).
Qed.

Lemma directory_pattern_prunes_walked_witness :
  should_ignore sample_env (walked "/r" ["build"; "out"])
                ["*.tmp"; "build/out/"] "/r"
  = (true, []).
Proof.
  apply (directory_pattern_prunes_walked sample_env "/r" "build" ["out"]).
  - reflexivity.
  - repeat constructor; discriminate.
  - reflexivity.
  - right. left. reflexivity.
Defined.

(** *** The last name of a walked path *)

Lemma slash_free_contains (b : string) :
  slash_free b = true -> contains (String slash EmptyString) b = false.
Proof.
  induction b as [|c t IH]; [reflexivity|].
  cbn [slash_free]. intros H. apply andb_true_iff in H as [Hc Ht].
  apply negb_true_iff in Hc. rewrite contains_unfold, (IH Ht).
  cbn [startswith]. now rewrite Ascii.eqb_sym, Hc.
Qed.

Lemma after_last_app (x b : string) :
  slash_free b = true -> after_last slash (x ++ String slash b) = b.
Proof.
  intros Hb. induction x as [|c t IH].
  - cbn [append after_last]. rewrite (slash_free_contains b Hb).
    now rewrite Ascii.eqb_refl.
  - change (String c t ++ String slash b) with (String c (t ++ String slash b)).
    cbn [after_last].
    replace (contains (String slash EmptyString) (t ++ String slash b))
      with true; [exact IH|].
    symmetry. apply contains_spec. now exists t, b.
Qed.

Lemma basename_join (a b : string) :
  startswith a "/" = true -> proper_name b ->
  posixpath.basename (posixpath.join a b) = b.
Proof.
  intros Ha Hb. pose proof Hb as [[_ Hs] _]. unfold posixpath.basename.
  destruct (join_shape a b Ha Hb) as [[_ ->] | [a' [_ ->]]];
    now apply after_last_app.
Qed.

Lemma walked_snoc (root : string) (names : list string) (b : string) :
  walked root (names ++ [b]) = posixpath.join (walked root names) b.
Proof. unfold walked. now rewrite fold_left_app. Qed.

Lemma join_snoc (names : list string) (b : string) :
  exists pre, PyStr.join "/" (names ++ [b]) = pre ++ b.
Proof.
  induction names as [|x r [pre IH]].
  - now exists EmptyString.
  - destruct r as [|y r'].
    + exists (x ++ "/"). cbn [app PyStr.join]. now rewrite sapp_assoc.
    + exists (x ++ "/" ++ pre).
      change (PyStr.join "/" ((x :: y :: r') ++ [b]))
        with (x ++ "/" ++ PyStr.join "/" ((y :: r') ++ [b])).
      now rewrite IH, !sapp_assoc.
Qed.

(** On a walked entry the test on the base name adds nothing to the
    test on the relative path. *)
Lemma basename_match_redundant (root : string) (n : string)
    (names : list string) (p : string) :
  startswith root "/" = true ->
  Forall proper_name (n :: names) ->
  fnmatch_path (PyStr.join "/" (n :: names)) p
  || fnmatch_path (posixpath.basename (walked root (n :: names))) p
  = fnmatch_path (PyStr.join "/" (n :: names)) p.
Proof.
  intros Ha Hn.
  destruct (exists_last (l := n :: names) ltac:(discriminate))
    as [init [b E]].
  rewrite E in *. apply Forall_app in Hn as [Hinit Hb].
  inversion Hb as [|? ? Hb' _]; subst.
  rewrite walked_snoc,
    (basename_join _ b (proj1 (walked_tail_list init Hinit root Ha)) Hb').
  destruct (join_snoc init b) as [pre ->].
  rewrite orb_comm. apply orb_absorb.
  rewrite !fnmatch_path_contains, replace_app. intros H.
  apply contains_spec. apply contains_spec in H.
  apply (Substring_trans _ _ _ H).
  exists (replace backslash slash pre), EmptyString.
  now rewrite sapp_nil_r.
Qed.

(** X14. Below an absolute root and for patterns that are non-empty and
    do not end in [/], an entry reached through a chain of names is
    ignored exactly when its path has a [.git] part or some pattern
    matches its relative path, the names joined by [/]; the second test,
    on the base name, never changes the verdict. *)
Theorem plain_patterns_on_walked_entry (env : Env) (root : string)
    (n : string) (names patterns : list string) :
  startswith root "/" = true ->
  Forall proper_name (n :: names) ->
  Forall (fun p => p <> EmptyString /\ endswith p "/" = false) patterns ->
  fst (should_ignore env (walked root (n :: names)) patterns root)
  = existsb (String.eqb ".git") (pathlib.parts (walked root (n :: names)))
    || existsb (fnmatch_path (PyStr.join "/" (n :: names))) patterns.
Proof.
  intros Ha Hn Hp. rewrite should_ignore_value.
  rewrite (relpath_walked_value env root (n :: names) Ha Hn). cbn [fst].
  pose proof (walked_relpath_not_root n names Hn) as Hroot.
  apply String.eqb_neq in Hroot. rewrite Hroot. cbn [negb andb].
  f_equal. induction Hp as [|p ps [Hne Hend] _ IH]; [reflexivity|].
  cbn [existsb]. rewrite IH. f_equal. unfold pattern_hits.
  apply String.eqb_neq in Hne. rewrite Hne, Hend.
  now apply basename_match_redundant.
Qed.

Lemma plain_patterns_on_walked_entry_witness :
  fst (should_ignore sample_env (walked "/r" ["pkg"; "x.tmp"])
                     ["*.log"; "tmp"] "/r")
  = true.
Proof.
  rewrite (plain_patterns_on_walked_entry sample_env "/r" "pkg" ["x.tmp"]
             ["*.log"; "tmp"]).
  - reflexivity.
  - reflexivity.
  - repeat constructor; discriminate.
  - repeat constructor; discriminate.
Defined.

(** ** [main] *)

Lemma abspath_absolute (env : Env) (path : string) :
  startswith (getcwd env) "/" = true ->
  startswith (posixpath.abspath env path) "/" = true.
Proof.
  intros Hcwd. unfold posixpath.abspath.
  set (x := if startswith path "/" then path
            else posixpath.join (getcwd env) path).
  assert (Hx : startswith x "/" = true).
  { subst x. destruct (startswith path "/") eqn:Hp; [exact Hp|].
    unfold posixpath.join. rewrite Hp.
    destruct (startswith_absolute _ Hcwd) as [t ->].
    now destruct (String.eqb (String slash t) EmptyString
                  || endswith (String slash t) "/"). }
  destruct (startswith_absolute x Hx) as [t Et].
  unfold posixpath.normpath. rewrite Hx, Et. cbn [String.eqb]. rewrite <- Et.
  destruct (startswith x "//" && negb (startswith x "///")); reflexivity.
Qed.

(** X15. With an absolute working directory: when the chosen root does
    not exist, [main] prints one error line and scans nothing; when it
    exists, [main] scans its absolute form, the scan ends normally, and
    the lines [main] prints end with the two counts the scan returned,
    never with the error line. *)
Theorem main_scans_absolute_root (env : Env) (path_exists : string -> bool)
    (fs : string -> file_reads)
    (listing_at : string -> option (list entry)) (argv : list string) :
  startswith (getcwd env) "/" = true ->
  let root := chosen_root env argv in
  (path_exists root = false ->
   main env path_exists fs listing_at argv
   = (["Error: Directory '" ++ root ++ "' does not exist."], None))
  /\ (path_exists root = true ->
      startswith (posixpath.abspath env root) "/" = true
      /\ exists st,
           scan_directory_simple env fs
             (listing_at (posixpath.abspath env root))
             (posixpath.abspath env root) = Done st
           /\ snd (main env path_exists fs listing_at argv) = Some (Done st)
           /\ exists before,
                fst (main env path_exists fs listing_at argv)
                = List.app before
                    [chart_sign ++ " Files processed: "
                     ++ str_of_nat (file_count st);
                     barred_sign ++ " Files ignored: "
                     ++ str_of_nat (ignored_count st);
                     disk_sign ++ " Output saved to: directory_contents.txt"]).
Proof.
  intros Hcwd root. unfold main. fold root. split.
  - now intros ->.
  - intros ->. cbn [negb].
    pose proof (abspath_absolute env root Hcwd) as Habs.
    split; [exact Habs|].
    destruct (scan_summary env fs (listing_at (posixpath.abspath env root))
                (posixpath.abspath env root)) as [st [-> _]].
    + destruct (startswith_absolute _ Habs) as [t ->]. discriminate.
    + exists st. split; [reflexivity|]. split; [reflexivity|].
      cbn [fst].
      eexists (_ :: _ :: _ :: stdout st ++ [_])%list.
      cbn [app]. rewrite <- !app_assoc. reflexivity.
Qed.

Lemma main_scans_absolute_root_witness :
  exists st,
    snd (main sample_env_patterns (fun p => String.eqb p "pkg/..") sample_fs
              (fun p => if String.eqb p "/r" then Some sample_tree else None)
              ["scan_file.py"; "pkg/.."])
    = Some (Done st)
    /\ file_count st = 2 /\ ignored_count st = 4.
Proof.
  destruct (main_scans_absolute_root sample_env_patterns
              (fun p => String.eqb p "pkg/..") sample_fs
              (fun p => if String.eqb p "/r" then Some sample_tree else None)
              ["scan_file.py"; "pkg/.."] eq_refl) as [_ H].
  destruct (H eq_refl) as [_ [st [E [M _]]]].
  exists st. split; [exact M|].
  vm_compute in E. injection E as <-. split; reflexivity.
Defined.

(** ** A tree without [.git] and a root without [.gitignore] *)

Lemma git_survives_filter (l : list string) :
  In ".git"
     (filter (fun x => negb (String.eqb x EmptyString)
                       && negb (String.eqb x ".")) l)
  <-> In ".git" l.
Proof.
  rewrite filter_In. split; [now intros [H _] | now intros H].
Qed.

Lemma parts_git_split (path : string) :
  startswith path "/" = true ->
  In ".git" (pathlib.parts path) <-> In ".git" (split slash path).
Proof.
  intros Ha. destruct (startswith_absolute path Ha) as [t ->].
  unfold pathlib.parts, pathlib.splitroot. rewrite Ha. cbn [negb].
  rewrite split_cons, Ascii.eqb_refl.
  destruct (negb (startswith (String slash t) "//")
            || startswith (String slash t) "///") eqn:E.
  - cbn [slice_from String.eqb]. split.
    + intros [H | H]; [discriminate H|]. right. now apply git_survives_filter.
    + intros [H | H]; [discriminate H|]. right. now apply git_survives_filter.
  - apply orb_false_iff in E as [E _]. apply negb_false_iff in E.
    destruct t as [|c u]; [discriminate E|].
    cbn [startswith andb] in E. rewrite Ascii.eqb_refl in E.
    cbn [andb] in E. rewrite andb_true_r in E.
    apply Ascii.eqb_eq in E. subst c.
    cbn [slice_from String.eqb]. fold slash.
    rewrite split_cons, Ascii.eqb_refl. split.
    + intros [H | H]; [discriminate H|]. right. right.
      now apply git_survives_filter.
    + intros [H | [H | H]]; try discriminate H. right.
      now apply git_survives_filter.
Qed.

Lemma join_git_free (a b : string) :
  startswith a "/" = true -> proper_name b -> b <> ".git" ->
  git_free a -> git_free (posixpath.join a b).
Proof.
  unfold git_free. intros Ha Hb Hgit Hfree Hin.
  apply (parts_git_split _ (join_absolute a b Ha Hb)) in Hin.
  apply Hfree, (parts_git_split _ Ha).
  pose proof Hb as [[_ Hs] _].
  destruct (join_shape a b Ha Hb) as [[_ E] | [a' [E1 E2]]].
  - rewrite E, split_app_slash, (split_single b Hs) in Hin.
    apply in_app_or in Hin as [H | [H | []]]; [exact H | now destruct Hgit].
  - rewrite E2, split_app_slash, (split_single b Hs) in Hin.
    rewrite E1. change "/" with (String slash EmptyString).
    rewrite split_app_slash. apply in_or_app.
    apply in_app_or in Hin as [H | [H | []]]; [now left | now destruct Hgit].
Qed.

Lemma plain_tree_entries (e : entry) :
  forall parent above x,
    startswith parent "/" = true -> git_free parent ->
    Forall git_free above -> plain_tree e ->
    In x (tree_entries parent above e) ->
    git_free (entry_path x) /\ Forall git_free (fst (fst x)).
Proof.
  induction e as [name|name children IH|name] using entry_nested_ind;
    intros parent above x Ha Hfree Habove Hplain Hin.
  - inversion Hplain; subst. destruct Hin as [<- | []].
    split; [now apply join_git_free | exact Habove].
  - inversion Hplain as [|? ? Hn Hg Hkids|]; subst.
    cbn [tree_entries entry_name] in Hin.
    assert (Hpath : git_free (posixpath.join parent name))
      by now apply join_git_free.
    destruct Hin as [<- | Hin]; [now split|].
    apply in_flat_map in Hin as [k [Hk Hx]].
    rewrite Forall_forall in IH, Hkids.
    apply (IH k Hk (posixpath.join parent name)
              (above ++ [posixpath.join parent name])%list x);
      [now apply join_absolute | exact Hpath | | now apply Hkids | exact Hx].
    apply Forall_app. split; [exact Habove | now constructor].
  - inversion Hplain; subst. destruct Hin as [<- | []].
    split; [now apply join_git_free | exact Habove].
Qed.

Lemma git_free_not_ignored (env : Env) (root_dir path : string) :
  git_free path -> ignored env [] root_dir path = false.
Proof.
  intros H. rewrite ignored_without_patterns.
  destruct (existsb (String.eqb ".git") (pathlib.parts path)) eqn:E;
    [|reflexivity].
  apply has_git_iff in E. now destruct H.
Qed.

Lemma filter_pointwise_in {A : Type} (f g : A -> bool) (l : list A) :
  (forall x, In x l -> f x = g x) -> filter f l = filter g l.
Proof.
  induction l as [|x l IH]; intros H; cbn [filter]; [reflexivity|].
  rewrite (H x (or_introl eq_refl)), IH; [reflexivity|].
  intros y Hy. apply H. now right.
Qed.

(** X16. Nothing is lost by default: below an absolute root with no
    [.git] part and no readable [.gitignore], in a tree of proper names
    none of which is [.git], the scan reads every file of the tree and
    ignores nothing. *)
Theorem scan_reads_everything_by_default (env : Env)
    (fs : string -> file_reads) (listing : list entry) (root_dir : string) :
  startswith root_dir "/" = true ->
  git_free root_dir ->
  (open_file env (posixpath.join root_dir ".gitignore") = NoSuchFile
   \/ exists e,
        open_file env (posixpath.join root_dir ".gitignore") = OpenFails e) ->
  Forall plain_tree listing ->
  exists st,
    scan_directory_simple env fs (Some listing) root_dir = Done st
    /\ Permutation (reads st)
         (map entry_path (filter is_file (listing_entries root_dir listing)))
    /\ ignored_count st = 0.
Proof.
  intros Ha Hfree Hfile Hplain.
  assert (Hroot : root_dir <> EmptyString)
    by (destruct (startswith_absolute _ Ha) as [t ->]; discriminate).
  destruct (scan_summary env fs (Some listing) root_dir Hroot)
    as [st [E [P [_ I]]]].
  assert (Hp : fst (load_gitignore_patterns env root_dir) = []).
  { unfold load_gitignore_patterns.
    destruct Hfile as [-> | [e ->]]; reflexivity. }
  rewrite Hp in P, I. cbn [root_entries] in P, I.
  assert (Hall : forall x,
             In x (listing_entries root_dir listing) ->
             reached env [] root_dir x = true
             /\ ignored env [] root_dir (entry_path x) = false).
  { intros x Hx. unfold listing_entries in Hx.
    apply in_flat_map in Hx as [k [Hk Hx]].
    rewrite Forall_forall in Hplain.
    destruct (plain_tree_entries k root_dir [] x Ha Hfree
                (Forall_nil _) (Hplain k Hk) Hx) as [H1 H2].
    split; [|now apply git_free_not_ignored].
    unfold reached. apply forallb_forall. intros d Hd.
    rewrite Forall_forall in H2.
    now rewrite (git_free_not_ignored env root_dir d (H2 d Hd)). }
  exists st. split; [exact E|]. split.
  - unfold kept_files in P.
    rewrite (filter_pointwise_in _ is_file) in P; [exact P|].
    intros x Hx. destruct (Hall x Hx) as [-> ->].
    now rewrite !andb_true_r.
  - rewrite I. unfold dropped. rewrite filter_none; [reflexivity|].
    intros x Hx. destruct (Hall x Hx) as [_ ->]. apply andb_false_r.
Qed.

Lemma scan_reads_everything_by_default_witness :
  exists st,
    scan_directory_simple sample_env sample_fs
      (Some [File "notes.tmp"; Dir "src" [File "main.py"; Dir "lib" []];
             OpaqueDir "lnk"])
      "/r/build"
    = Done st
    /\ Permutation (reads st) ["/r/build/notes.tmp"; "/r/build/src/main.py"]
    /\ ignored_count st = 0.
Proof.
  apply (scan_reads_everything_by_default sample_env sample_fs
           [File "notes.tmp"; Dir "src" [File "main.py"; Dir "lib" []];
            OpaqueDir "lnk"] "/r/build").
  - reflexivity.
  - cbn. intros [H | [H | [H | []]]]; discriminate H.
  - right. eexists. reflexivity.
  - repeat (constructor; try discriminate).
Defined.

(** ** What the counters cannot do *)

(** X17. What reading a file does, whether it returns text or fails,
    has no bearing on which files the scan processes or on its two
    counters: a file that cannot be read is still counted as
    processed. *)
Theorem scan_counts_ignore_file_contents (env : Env)
    (fs fs' : string -> file_reads) (listing : option (list entry))
    (root_dir : string) :
  root_dir <> EmptyString ->
  exists st st',
    scan_directory_simple env fs listing root_dir = Done st
    /\ scan_directory_simple env fs' listing root_dir = Done st'
    /\ Permutation (reads st) (reads st')
    /\ file_count st = file_count st'
    /\ ignored_count st = ignored_count st'.
Proof.
  intros Hroot.
  destruct (scan_summary env fs listing root_dir Hroot)
    as [st [E [P [F I]]]].
  destruct (scan_summary env fs' listing root_dir Hroot)
    as [st' [E' [P' [F' I']]]].
  exists st, st'. repeat split; try assumption.
  - rewrite P. now apply Permutation_sym.
  - rewrite F, F'. apply Permutation_length.
    rewrite P. now apply Permutation_sym.
  - now rewrite I, I'.
Qed.

Lemma scan_counts_ignore_file_contents_witness :
  exists st st',
    scan_directory_simple sample_env sample_fs (Some sample_tree) "/r"
    = Done st
    /\ scan_directory_simple sample_env
         (fun _ => mkReads (RaisesOther "[Errno 5] Input/output error")
                           (Returns EmptyString))
         (Some sample_tree) "/r" = Done st'
    /\ file_count st = file_count st'.
Proof.
  destruct (scan_counts_ignore_file_contents sample_env sample_fs
              (fun _ => mkReads (RaisesOther "[Errno 5] Input/output error")
                                (Returns EmptyString))
              (Some sample_tree) "/r") as [st [st' [E [E' [_ [F _]]]]]].
  - discriminate.
  - exists st, st'. auto.
Defined.

Lemma disjoint_filters {A : Type} (f g : A -> bool) (l : list A) :
  (forall x, f x = true -> g x = false) ->
  List.length (filter f l) + List.length (filter g l) <= List.length l.
Proof.
  intros H. induction l as [|x l IH]; cbn [filter List.length]; [lia|].
  destruct (f x) eqn:Hf.
  - rewrite (H x Hf). cbn [List.length]. lia.
  - destruct (g x); cbn [List.length]; lia.
Qed.

(** X18. The two counters together never exceed the number of entries
    in the tree: no entry is counted twice, as processed and as
    ignored or on two visits. *)
Theorem scan_counts_bounded (env : Env) (fs : string -> file_reads)
    (listing : option (list entry)) (root_dir : string) :
  root_dir <> EmptyString ->
  exists st,
    scan_directory_simple env fs listing root_dir = Done st
    /\ file_count st + ignored_count st
       <= List.length (root_entries root_dir listing).
Proof.
  intros Hroot.
  destruct (scan_summary env fs listing root_dir Hroot)
    as [st [E [P [F I]]]].
  exists st. split; [exact E|].
  rewrite F, (Permutation_length P), I. unfold kept_files, dropped.
  rewrite length_map. apply disjoint_filters.
  intros x Hx. apply andb_true_iff in Hx as [_ Hx].
  apply negb_true_iff in Hx. rewrite Hx. apply andb_false_r.
Qed.

Lemma scan_counts_bounded_witness :
  exists st,
    scan_directory_simple sample_env_patterns sample_fs (Some sample_tree) "/r"
    = Done st
    /\ file_count st + ignored_count st <= 12.
Proof.
  destruct (scan_counts_bounded sample_env_patterns sample_fs
              (Some sample_tree) "/r") as [st [E B]].
  - discriminate.
  - exists st. split; [exact E | exact B].
Defined.
